(** * sf_restcalls: the Snowflake session client and its command line

    A shallow embedding of [sf_restcalls/snowflake_client.py],
    [sf_restcalls/exceptions.py] and [sf_restcalls/cli.py].

    The database driver ([snowflake.connector]) is an external dependency
    of the package.  It is kept abstract: a record of transition functions
    over a driver world, so every statement about the client holds for
    every driver.  A small in-memory driver is defined for concrete runs.

    Conventions of the model:
    - a Python [str] is a [string]; each character stands for the code
      point of the same number (0..255);
    - a method of the client is a function from the state before the call
      to an outcome (a returned value or a raised exception) and the state
      after; mutations made before an exception is raised are kept, as in
      Python;
    - every call made on the driver is appended to a call log kept next to
      the driver world; the log is what "the driver is (not) invoked"
      refers to.  The status query [is_closed()] reads the handle and is
      not a logged call;
    - calls to [logging] do not change control flow and are left out. *)

From Stdlib Require Import String Ascii List ZArith NArith Bool Arith Lia.
Import ListNotations.
Local Open Scope list_scope.
Local Open Scope string_scope.

(* ===================================================================== *)
(** * Python strings *)
(* ===================================================================== *)

Module PyStr.

(** [not s] for a string: the empty string is falsy. *)
Definition is_empty (s : string) : bool :=
  match s with EmptyString => true | String _ _ => false end.

(** Truthiness of an [Optional[str]]: [None] and [""] are falsy. *)
Definition truthy (o : option string) : bool :=
  match o with
  | Some s => negb (is_empty s)
  | None => false
  end.

(** [s.startswith(p)]. *)
Fixpoint startswith (p s : string) : bool :=
  match p with
  | EmptyString => true
  | String c p' =>
      match s with
      | String d s' => Ascii.eqb c d && startswith p' s'
      | EmptyString => false
      end
  end.

(** [needle in hay]. *)
Fixpoint contains (needle hay : string) : bool :=
  startswith needle hay
  || match hay with
     | EmptyString => false
     | String _ rest => contains needle rest
     end.

Definition in_range (lo hi : N) (c : ascii) : bool :=
  (lo <=? N_of_ascii c)%N && (N_of_ascii c <=? hi)%N.

(** [str.lower] on one character: [A-Z], and the upper-case letters of
    the range U+00C0..U+00DE (U+00D7 is the multiplication sign). *)
Definition lower_char (c : ascii) : ascii :=
  if in_range 65 90 c then ascii_of_N (N_of_ascii c + 32)
  else if in_range 192 222 c && negb (N_of_ascii c =? 215)%N
       then ascii_of_N (N_of_ascii c + 32)
       else c.

Fixpoint lower (s : string) : string :=
  match s with
  | EmptyString => EmptyString
  | String c rest => String (lower_char c) (lower rest)
  end.

(** [str.isspace] on one character: TAB..CR, FS..US, SPACE, NEL, NBSP. *)
Definition is_space (c : ascii) : bool :=
  in_range 9 13 c || in_range 28 32 c
  || (N_of_ascii c =? 133)%N || (N_of_ascii c =? 160)%N.

Fixpoint lstrip (s : string) : string :=
  match s with
  | EmptyString => EmptyString
  | String c rest => if is_space c then lstrip rest else s
  end.

(** [rstrip] keeps a character when it is not a space or when something
    is kept after it. *)
Fixpoint rstrip (s : string) : string :=
  match s with
  | EmptyString => EmptyString
  | String c rest =>
      match rstrip rest with
      | EmptyString => if is_space c then EmptyString else String c EmptyString
      | kept => String c kept
      end
  end.

(** [s.strip()]. *)
Definition strip (s : string) : string := rstrip (lstrip s).

(** [s.split(sep)] for a one-character separator: one more piece than
    there are separators, so [''.split(',') = ['']]. *)
Fixpoint split (sep : ascii) (s : string) : list string :=
  match s with
  | EmptyString => [EmptyString]
  | String c rest =>
      if Ascii.eqb c sep then EmptyString :: split sep rest
      else match split sep rest with
           | piece :: pieces => String c piece :: pieces
           | [] => [String c EmptyString]
           end
  end.

(** [sep.join(pieces)]. *)
Definition join (sep : string) (pieces : list string) : string :=
  String.concat sep pieces.

(** Does the character occur in the string? *)
Fixpoint has_char (c : ascii) (s : string) : bool :=
  match s with
  | EmptyString => false
  | String d rest => Ascii.eqb d c || has_char c rest
  end.

(** The code points of a string. *)
Fixpoint codepoints (s : string) : list N :=
  match s with
  | EmptyString => []
  | String c rest => N_of_ascii c :: codepoints rest
  end.

End PyStr.

(* ===================================================================== *)
(** * Python values and dictionaries *)
(* ===================================================================== *)

(** An insertion-ordered dictionary, as Python's [dict]: assigning to a key
    that is present replaces its value in place, assigning to a new key
    appends it. *)
Module PyDict.

Section Dict.
Context {K V : Type} (eqb : K -> K -> bool).

Fixpoint setitem (d : list (K * V)) (k : K) (v : V) : list (K * V) :=
  match d with
  | [] => [(k, v)]
  | (k', v') :: rest =>
      if eqb k' k then (k', v) :: rest
      else (k', v') :: setitem rest k v
  end.

Fixpoint get (d : list (K * V)) (k : K) : option V :=
  match d with
  | [] => None
  | (k', v') :: rest => if eqb k' k then Some v' else get rest k
  end.

Definition mem (d : list (K * V)) (k : K) : bool :=
  match get d k with Some _ => true | None => false end.

Definition keys (d : list (K * V)) : list K := map fst d.

(** [dict(pairs)]: the pairs are assigned from left to right. *)
Definition of_pairs (pairs : list (K * V)) : list (K * V) :=
  fold_left (fun d kv => setitem d (fst kv) (snd kv)) pairs [].

End Dict.

End PyDict.

(** A code-point string, for values that may hold any Unicode text. *)
Definition ustr := list N.

Definition ustr_eqb (a b : ustr) : bool :=
  if list_eq_dec N.eq_dec a b then true else false.

(** The values that travel as procedure parameters and as result cells.
    A float is kept as the decimal text it was read from. *)
#[warnings="-register-all"]
Inductive PyVal : Type :=
| PNone
| PBool (b : bool)
| PInt (z : Z)
| PFloat (text : string)
| PStr (s : ustr)
| PTimestamp (iso : string)
| PList (items : list PyVal)
| PDict (items : list (ustr * PyVal)).

(** A [str] value. *)
Definition pstr (s : string) : PyVal := PStr (PyStr.codepoints s).


(** A result record: column name to cell, in insertion order. *)
Definition Record_ := list (string * PyVal).

(** [dict(zip(columns, row))]. *)
Definition row_dict (columns : list string) (row : list PyVal) : Record_ :=
  PyDict.of_pairs String.eqb (combine columns row).

(* ===================================================================== *)
(** * The JSON decoder used by the command line *)
(* ===================================================================== *)

(** [json.loads] belongs to Python's standard library, not to this
    package.  The decoder below follows the scanner of the [json] module
    (strict mode): the literals [null], [true], [false], [NaN], [Infinity]
    and [-Infinity], numbers, strings with their escapes, arrays and
    objects, surrounded by optional JSON whitespace.  [None] is
    [JSONDecodeError].  The interpreter's recursion limit is not
    modelled. *)
Module Json.

Import PyStr.

Definition is_ws (c : ascii) : bool :=
  Ascii.eqb c " " || (N_of_ascii c =? 9)%N
  || (N_of_ascii c =? 10)%N || (N_of_ascii c =? 13)%N.

Fixpoint skip_ws (s : string) : string :=
  match s with
  | EmptyString => EmptyString
  | String c rest => if is_ws c then skip_ws rest else s
  end.

Definition is_digit (c : ascii) : bool := in_range 48 57 c.

(** The longest run of digits at the head, and what follows it. *)
Fixpoint take_digits (s : string) : string * string :=
  match s with
  | EmptyString => (EmptyString, EmptyString)
  | String c rest =>
      if is_digit c
      then let (ds, r) := take_digits rest in (String c ds, r)
      else (EmptyString, s)
  end.

Fixpoint digits_value (acc : Z) (s : string) : Z :=
  match s with
  | EmptyString => acc
  | String c rest =>
      digits_value (10 * acc + (Z.of_N (N_of_ascii c) - 48))%Z rest
  end.

(** [int(text)] for a text matched by the integer part of a number. *)
Definition int_of_text (s : string) : Z :=
  match s with
  | String "-" rest => (- digits_value 0 rest)%Z
  | _ => digits_value 0 s
  end.

(** The integer group of the number pattern: an optional minus sign,
    then a single zero or a non-zero digit followed by digits. *)
Definition match_integer (s : string) : option (string * string) :=
  let '(sign, body) :=
    match s with
    | String "-" rest => ("-", rest)
    | _ => ("", s)
    end in
  match body with
  | String c rest =>
      if Ascii.eqb c "0" then Some (sign ++ "0", rest)
      else if in_range 49 57 c
           then let (ds, r) := take_digits rest in
                Some (sign ++ String c ds, r)
           else None
  | EmptyString => None
  end.

(** The optional fraction group: a dot and at least one digit. *)
Definition match_frac (s : string) : string * string :=
  match s with
  | String "." rest =>
      match take_digits rest with
      | (EmptyString, _) => (EmptyString, s)
      | (ds, r) => (String "." ds, r)
      end
  | _ => (EmptyString, s)
  end.

(** The optional exponent group: [e] or [E], an optional sign and at
    least one digit. *)
Definition match_exp (s : string) : string * string :=
  match s with
  | String e rest =>
      if Ascii.eqb e "e" || Ascii.eqb e "E" then
        let '(sign, body) :=
          match rest with
          | String "-" r => ("-", r)
          | String "+" r => ("+", r)
          | _ => ("", rest)
          end in
        match take_digits body with
        | (EmptyString, _) => (EmptyString, s)
        | (ds, r) => (String e (sign ++ ds), r)
        end
      else (EmptyString, s)
  | EmptyString => (EmptyString, s)
  end.

(** A matched number: an [int] without fraction and exponent, a [float]
    otherwise. *)
Definition match_number (s : string) : option (PyVal * string) :=
  match match_integer s with
  | None => None
  | Some (integer, r1) =>
      let (frac, r2) := match_frac r1 in
      let (exp, r3) := match_exp r2 in
      if is_empty frac && is_empty exp
      then Some (PInt (int_of_text integer), r3)
      else Some (PFloat (integer ++ frac ++ exp), r3)
  end.

Definition hex_value (c : ascii) : option N :=
  if in_range 48 57 c then Some (N_of_ascii c - 48)%N
  else if in_range 97 102 c then Some (N_of_ascii c - 87)%N
  else if in_range 65 70 c then Some (N_of_ascii c - 55)%N
  else None.

(** Four hexadecimal digits. *)
Definition decode_uXXXX (s : string) : option (N * string) :=
  match s with
  | String a (String b (String c (String d rest))) =>
      match hex_value a, hex_value b, hex_value c, hex_value d with
      | Some x, Some y, Some z, Some w =>
          Some (((x * 16 + y) * 16 + z) * 16 + w, rest)%N
      | _, _, _, _ => None
      end
  | _ => None
  end.

(** The character a one-letter escape stands for. *)
Definition backslash (c : ascii) : option N :=
  if Ascii.eqb c "034"%char then Some 34%N
  else if Ascii.eqb c "\" then Some 92%N
  else if Ascii.eqb c "/" then Some 47%N
  else if Ascii.eqb c "b" then Some 8%N
  else if Ascii.eqb c "f" then Some 12%N
  else if Ascii.eqb c "n" then Some 10%N
  else if Ascii.eqb c "r" then Some 13%N
  else if Ascii.eqb c "t" then Some 9%N
  else None.

(** The text of a string literal after its opening quote; a high
    surrogate followed by an escaped low surrogate is one character. *)
Fixpoint scanstring (fuel : nat) (s : string) (acc : ustr)
  : option (ustr * string) :=
  match fuel with
  | O => None
  | S fuel' =>
      match s with
      | EmptyString => None
      | String c rest =>
          if Ascii.eqb c "034"%char then Some (rev acc, rest)
          else if Ascii.eqb c "\" then
            match rest with
            | EmptyString => None
            | String esc rest2 =>
                if Ascii.eqb esc "u" then
                  match decode_uXXXX rest2 with
                  | None => None
                  | Some (uni, rest3) =>
                      if (55296 <=? uni)%N && (uni <=? 56319)%N then
                        match rest3 with
                        | String "\" (String "u" rest4) =>
                            match decode_uXXXX rest4 with
                            | None => None
                            | Some (uni2, rest5) =>
                                if (56320 <=? uni2)%N && (uni2 <=? 57343)%N
                                then scanstring fuel' rest5
                                       ((65536 + ((uni - 55296) * 1024
                                                  + (uni2 - 56320)))%N :: acc)
                                else scanstring fuel' rest3 (uni :: acc)
                            end
                        | _ => scanstring fuel' rest3 (uni :: acc)
                        end
                      else scanstring fuel' rest3 (uni :: acc)
                  end
                else
                  match backslash esc with
                  | Some ch => scanstring fuel' rest2 (ch :: acc)
                  | None => None
                  end
            end
          else if (N_of_ascii c <? 32)%N then None
          else scanstring fuel' rest (N_of_ascii c :: acc)
      end
  end.

(** [s] starts with [lit]: what follows it. *)
Fixpoint after_prefix (lit s : string) : option string :=
  match lit with
  | EmptyString => Some s
  | String c lit' =>
      match s with
      | String d s' => if Ascii.eqb c d then after_prefix lit' s' else None
      | EmptyString => None
      end
  end.

(** One JSON value at the head of [s] and what follows it. *)
Fixpoint scan_once (fuel : nat) (s : string) : option (PyVal * string) :=
  match fuel with
  | O => None
  | S fuel' =>
      match s with
      | EmptyString => None
      | String c rest =>
          if Ascii.eqb c "034"%char then
            match scanstring (S (String.length rest)) rest [] with
            | Some (text, r) => Some (PStr text, r)
            | None => None
            end
          else if Ascii.eqb c "{" then
            match skip_ws rest with
            | String "}" r => Some (PDict [], r)
            | String "034"%char r => object_pairs fuel' r []
            | _ => None
            end
          else if Ascii.eqb c "[" then
            match skip_ws rest with
            | String "]" r => Some (PList [], r)
            | r => array_items fuel' r []
            end
          else
            match after_prefix "null" s, after_prefix "true" s,
                  after_prefix "false" s with
            | Some r, _, _ => Some (PNone, r)
            | _, Some r, _ => Some (PBool true, r)
            | _, _, Some r => Some (PBool false, r)
            | None, None, None =>
                match match_number s with
                | Some vr => Some vr
                | None =>
                    match after_prefix "NaN" s, after_prefix "Infinity" s,
                          after_prefix "-Infinity" s with
                    | Some r, _, _ => Some (PFloat "NaN", r)
                    | _, Some r, _ => Some (PFloat "Infinity", r)
                    | _, _, Some r => Some (PFloat "-Infinity", r)
                    | None, None, None => None
                    end
                end
            end
      end
  end

(** The elements of an array, from the first one on. *)
with array_items (fuel : nat) (s : string) (acc : list PyVal)
  : option (PyVal * string) :=
  match fuel with
  | O => None
  | S fuel' =>
      match scan_once fuel' s with
      | None => None
      | Some (v, r) =>
          match skip_ws r with
          | String "]" r' => Some (PList (rev (v :: acc)), r')
          | String "," r' => array_items fuel' (skip_ws r') (v :: acc)
          | _ => None
          end
      end
  end

(** The pairs of an object, from just after a key's opening quote. *)
with object_pairs (fuel : nat) (s : string) (acc : list (ustr * PyVal))
  : option (PyVal * string) :=
  match fuel with
  | O => None
  | S fuel' =>
      match scanstring (S (String.length s)) s [] with
      | None => None
      | Some (key, r) =>
          match skip_ws r with
          | String ":" r1 =>
              match scan_once fuel' (skip_ws r1) with
              | None => None
              | Some (v, r2) =>
                  match skip_ws r2 with
                  | String "}" r3 =>
                      Some (PDict (PyDict.of_pairs ustr_eqb
                                     (rev ((key, v) :: acc))), r3)
                  | String "," r3 =>
                      match skip_ws r3 with
                      | String "034"%char r4 =>
                          object_pairs fuel' r4 ((key, v) :: acc)
                      | _ => None
                      end
                  | _ => None
                  end
              end
          | _ => None
          end
      end
  end.

(** [json.loads(s)]: one value, with nothing but whitespace around it.
    Every step of the scanner consumes a character, so twice the length
    of the text bounds the depth of the recursion. *)
Definition loads (s : string) : option PyVal :=
  match scan_once (2 * String.length s + 2) (skip_ws s) with
  | Some (v, r) =>
      match skip_ws r with
      | EmptyString => Some v
      | String _ _ => None
      end
  | None => None
  end.

End Json.

(* ===================================================================== *)
(** * Exceptions *)
(* ===================================================================== *)

(** The exception classes the client meets.  The first three are raised by
    the driver: [ProgrammingError] is a subclass of [DatabaseError];
    [DatabaseError] stands for that class and its other subclasses;
    [OtherException] for any other subclass of [Exception] (interface,
    network, name-resolution and type errors).  The last four are the
    classes of [exceptions.py]. *)
Inductive exn_class : Type :=
| ProgrammingError
| DatabaseError
| OtherException
| SnowflakeConnectionError
| StoredProcedureError
| AuthenticationError
| ConfigurationError.

(** An exception: its class and the text [str(e)] gives. *)
Record exn : Type := Exn { exn_cls : exn_class; exn_str : string }.

(** [isinstance(e, snowflake.connector.errors.DatabaseError)]. *)
Definition is_DatabaseError (e : exn) : bool :=
  match exn_cls e with
  | ProgrammingError | DatabaseError => true
  | _ => false
  end.

(** [isinstance(e, snowflake.connector.errors.ProgrammingError)]. *)
Definition is_ProgrammingError (e : exn) : bool :=
  match exn_cls e with
  | ProgrammingError => true
  | _ => false
  end.

(** The outcome of a call: a returned value or a raised exception. *)
Inductive outcome (A : Type) : Type :=
| Return (a : A)
| Raise (e : exn).

Arguments Return {A} a.
Arguments Raise {A} e.

(* ===================================================================== *)
(** * The driver *)
(* ===================================================================== *)

(** One entry of [cursor.description]; the client reads the name only. *)
Record ResultMetadata : Type := {
  name : string;
  type_code : Z;
  display_size : option Z;
  internal_size : option Z;
  precision : option Z;
  scale : option Z;
  is_nullable : bool
}.

Section DriverInterface.

(** The driver world, connection handles and cursors. *)
Context {W H C : Type}.

(** What the client uses of [snowflake.connector]: each call may raise
    and may change the driver world. *)
Record Driver : Type := {
  (** [snowflake.connector.connect( **params )] *)
  drv_connect : list (string * string) -> W -> outcome H * W;
  (** [connection.close()] *)
  conn_close : H -> W -> outcome unit * W;
  (** [connection.is_closed()] *)
  conn_is_closed : H -> W -> bool;
  (** [connection.cursor()] *)
  conn_cursor : H -> W -> outcome C * W;
  (** [cursor.execute(statement)] and
      [cursor.execute(statement, parameters)] *)
  cur_execute : C -> string -> option (list PyVal) -> W -> outcome unit * W;
  (** [cursor.description] *)
  cur_description : C -> W -> option (list ResultMetadata);
  (** [cursor.fetchall()] *)
  cur_fetchall : C -> W -> outcome (list (list PyVal)) * W;
  (** [cursor.close()] *)
  cur_close : C -> W -> outcome unit * W
}.

(** The calls made on the driver, with their arguments. *)
Inductive event : Type :=
| EvConnect (params : list (string * string))
| EvClose (h : H)
| EvCursor (h : H)
| EvExecute (c : C) (statement : string) (binds : option (list PyVal))
| EvFetchall (c : C)
| EvCursorClose (c : C).

(** A [SnowflakeClient] object. *)
Record SnowflakeClient : Type := {
  account : string;
  username : string;
  token : string;
  warehouse : option string;
  database : option string;
  schema : option string;
  role : option string;
  connection : option H
}.

(** [self.connection = c] *)
Definition set_connection (c : option H) (self : SnowflakeClient)
  : SnowflakeClient :=
  {| account := account self; username := username self;
     token := token self; warehouse := warehouse self;
     database := database self; schema := schema self;
     role := role self; connection := c |}.

(** The client object, the driver world and the log of driver calls. *)
Record state : Type := {
  self : SnowflakeClient;
  world : W;
  calls : list event
}.

(** A computation over the state that returns or raises. *)
Definition M (A : Type) : Type := state -> outcome A * state.

Definition ret {A : Type} (a : A) : M A := fun st => (Return a, st).

Definition raise {A : Type} (e : exn) : M A := fun st => (Raise e, st).

Definition bind {A B : Type} (m : M A) (k : A -> M B) : M B :=
  fun st =>
    match m st with
    | (Return a, st') => k a st'
    | (Raise e, st') => (Raise e, st')
    end.

(** [try: m  except Exception as e: handler(e)] *)
Definition try_except {A : Type} (m : M A) (handler : exn -> M A) : M A :=
  fun st =>
    match m st with
    | (Return a, st') => (Return a, st')
    | (Raise e, st') => handler e st'
    end.

(** Read the state. *)
Definition gets {A : Type} (f : state -> A) : M A :=
  fun st => (Return (f st), st).

(** Replace the client object. *)
Definition modify_self (f : SnowflakeClient -> SnowflakeClient) : M unit :=
  fun st =>
    (Return tt, {| self := f (self st); world := world st;
                   calls := calls st |}).

(** A call on the driver: it is logged, and the world moves on. *)
Definition driver_call {A : Type} (ev : event) (op : W -> outcome A * W)
  : M A :=
  fun st =>
    let (r, w') := op (world st) in
    (r, {| self := self st; world := w';
           calls := (calls st ++ [ev])%list |}).

End DriverInterface.

Arguments Driver : clear implicits.
Arguments event : clear implicits.
Arguments SnowflakeClient : clear implicits.
Arguments state : clear implicits.
Arguments M : clear implicits.

Declare Scope py_scope.
Delimit Scope py_scope with py.
Notation "x <- m ;; k" := (bind m (fun x => k))
  (at level 61, m at next level, right associativity) : py_scope.
Notation "m ;; k" := (bind m (fun _ => k))
  (at level 61, right associativity) : py_scope.

(* ===================================================================== *)
(** * snowflake_client.py *)
(* ===================================================================== *)

Section Client.

Context {W H C : Type} (D : Driver W H C).

Local Abbreviation Mc := (M W H C).
Local Open Scope py_scope.

(** [SnowflakeClient.__init__]: the fields are stored, no connection. *)
Definition new_client (account username token : string)
           (warehouse database schema role : option string)
  : SnowflakeClient H :=
  {| account := account; username := username; token := token;
     warehouse := warehouse; database := database; schema := schema;
     role := role; connection := None |}.

(** [if value: params[key] = value] *)
Definition add_optional (key : string) (value : option string)
           (params : list (string * string)) : list (string * string) :=
  match value with
  | Some v => if PyStr.truthy value
              then PyDict.setitem String.eqb params key v
              else params
  | None => params
  end.

(** The keyword arguments [connect] passes to the driver. *)
Definition connection_params (c : SnowflakeClient H)
  : list (string * string) :=
  add_optional "role" (role c)
    (add_optional "schema" (schema c)
       (add_optional "database" (database c)
          (add_optional "warehouse" (warehouse c)
             [("account", account c); ("user", username c);
              ("token", token c); ("authenticator", "oauth")]))).

(** [SnowflakeClient.connect] *)
Definition connect : Mc unit :=
  try_except
    (params <- gets (fun st => connection_params (self st)) ;;
     h <- driver_call (EvConnect params) (drv_connect D params) ;;
     modify_self (set_connection (Some h)))
    (fun e =>
       if is_DatabaseError e then
         if PyStr.contains "authentication" (PyStr.lower (exn_str e))
         then raise (Exn AuthenticationError
                         ("Authentication failed: " ++ exn_str e))
         else raise (Exn SnowflakeConnectionError
                         ("Failed to connect to Snowflake: " ++ exn_str e))
       else raise (Exn SnowflakeConnectionError
                       ("Unexpected error connecting to Snowflake: "
                        ++ exn_str e))).

(** [SnowflakeClient.disconnect] *)
Definition disconnect : Mc unit :=
  conn <- gets (fun st => connection (self st)) ;;
  match conn with
  | Some h =>
      driver_call (EvClose h) (conn_close D h) ;;
      modify_self (set_connection None)
  | None => ret tt
  end.

(** [SnowflakeClient.is_connected], as a reading of the state. *)
Definition connected (st : state W H C) : bool :=
  match connection (self st) with
  | Some h => negb (conn_is_closed D h (world st))
  | None => false
  end.

Definition is_connected : Mc bool := gets connected.

(** [self.connection.cursor()]; on [None] the attribute lookup fails. *)
Definition open_cursor : Mc C :=
  conn <- gets (fun st => connection (self st)) ;;
  match conn with
  | Some h => driver_call (EvCursor h) (conn_cursor D h)
  | None => raise (Exn OtherException
                       "'NoneType' object has no attribute 'cursor'")
  end.

(** [', '.join(['%s'] * n)] *)
Definition placeholders (n : nat) : string :=
  PyStr.join ", " (repeat "%s" n).

(** The CALL statement and the arguments given to [cursor.execute] with
    it: the branches of [if parameters:]. *)
Definition call_statement (procedure_name : string)
           (parameters : option (list PyVal))
  : string * option (list PyVal) :=
  match parameters with
  | Some (p :: ps) =>
      ("CALL " ++ procedure_name ++ "("
         ++ placeholders (List.length (p :: ps)) ++ ")",
       Some (p :: ps))
  | _ => ("CALL " ++ procedure_name ++ "()", None)
  end.

(** The block that fetches the results, the same in both methods:
    [results = []], and when [cursor.description] is truthy one
    [dict(zip(columns, row))] per row of [cursor.fetchall()]. *)
Definition fetch_results (cursor : C) : Mc (list Record_) :=
  description <- gets (fun st => cur_description D cursor (world st)) ;;
  match description with
  | Some (d :: ds) =>
      let columns := map name (d :: ds) in
      rows <- driver_call (EvFetchall cursor) (cur_fetchall D cursor) ;;
      ret (map (row_dict columns) rows)
  | _ => ret []
  end.

(** The [try] block of [call_stored_procedure]. *)
Definition call_stored_procedure_body (procedure_name : string)
           (parameters : option (list PyVal)) : Mc (list Record_) :=
  cursor <- open_cursor ;;
  let (statement, binds) := call_statement procedure_name parameters in
  driver_call (EvExecute cursor statement binds)
              (cur_execute D cursor statement binds) ;;
  results <- fetch_results cursor ;;
  driver_call (EvCursorClose cursor) (cur_close D cursor) ;;
  ret results.

Definition not_connected : exn :=
  Exn SnowflakeConnectionError
      "Not connected to Snowflake. Call connect() first.".

(** [SnowflakeClient.call_stored_procedure] *)
Definition call_stored_procedure (procedure_name : string)
           (parameters : option (list PyVal)) : Mc (list Record_) :=
  ok <- is_connected ;;
  if negb ok then raise not_connected
  else
    try_except
      (call_stored_procedure_body procedure_name parameters)
      (fun e =>
         if is_ProgrammingError e
         then raise (Exn StoredProcedureError
                         ("Error executing stored procedure "
                          ++ procedure_name ++ ": " ++ exn_str e))
         else raise (Exn StoredProcedureError
                         ("Unexpected error executing stored procedure "
                          ++ procedure_name ++ ": " ++ exn_str e))).

(** [SnowflakeClient.call_sp_example] *)
Definition call_sp_example (parameters : option (list PyVal))
  : Mc (list Record_) :=
  call_stored_procedure "sp_example" parameters.

(** The [try] block of [execute_query]. *)
Definition execute_query_body (query : string) : Mc (list Record_) :=
  cursor <- open_cursor ;;
  driver_call (EvExecute cursor query None)
              (cur_execute D cursor query None) ;;
  results <- fetch_results cursor ;;
  driver_call (EvCursorClose cursor) (cur_close D cursor) ;;
  ret results.

(** [SnowflakeClient.execute_query] *)
Definition execute_query (query : string) : Mc (list Record_) :=
  ok <- is_connected ;;
  if negb ok then raise not_connected
  else
    try_except
      (execute_query_body query)
      (fun e =>
         if is_ProgrammingError e
         then raise (Exn StoredProcedureError
                         ("Error executing query: " ++ exn_str e))
         else raise (Exn StoredProcedureError
                         ("Unexpected error executing query: "
                          ++ exn_str e))).

(** [SnowflakeClient.__enter__]: connects; the object it returns is the
    client of the state. *)
Definition __enter__ : Mc unit := connect.

(** [SnowflakeClient.__exit__]: disconnects and returns [None], whatever
    exception (if any) ended the body. *)
Definition __exit__ (exc : option exn) : Mc unit := disconnect.

(** [with client: body].  When [__enter__] raises, neither the body nor
    [__exit__] runs.  Otherwise [__exit__] is called once the body has
    returned or raised; as it returns [None], an exception of the body is
    raised again after it, unless [__exit__] raised one itself. *)
Definition with_client {A : Type} (body : Mc A) : Mc A :=
  fun st =>
    match __enter__ st with
    | (Raise e, st1) => (Raise e, st1)
    | (Return _, st1) =>
        match body st1 with
        | (Return a, st2) =>
            match __exit__ None st2 with
            | (Return _, st3) => (Return a, st3)
            | (Raise e', st3) => (Raise e', st3)
            end
        | (Raise e, st2) =>
            match __exit__ (Some e) st2 with
            | (Return _, st3) => (Raise e, st3)
            | (Raise e', st3) => (Raise e', st3)
            end
        end
    end.

End Client.

(* ===================================================================== *)
(** * cli.py *)
(* ===================================================================== *)

Module Cli.

(** The namespace [argparse] returns.  A flag that was not given is
    [None]; [--procedure] defaults to ['sp_example'], [--output] to
    ['json']. *)
Inductive output_format : Type := json | table | csv.

Record Args : Type := {
  args_account : option string;
  args_username : option string;
  args_token : option string;
  args_warehouse : option string;
  args_database : option string;
  args_schema : option string;
  args_role : option string;
  args_procedure : string;
  args_parameters : option string;
  args_query : option string;
  args_output : output_format;
  args_file : option string;
  args_verbose : bool
}.

(** How [main] ends: normally, with the results it went on to print, or
    through [sys.exit(1)] after logging an error line. *)
Inductive exit : Type :=
| Exit0 (results : list Record_)
| Exit1 (logged : string).

Section WithDecoder.

(** [json.loads]; [None] is [JSONDecodeError]. *)
Context (json_loads : string -> option PyVal).

(** [parse_parameters] *)
Definition parse_parameters (param_string : option string)
  : option (list PyVal) :=
  match param_string with
  | Some s =>
      if negb (PyStr.truthy param_string) then None
      else
        let params := map PyStr.strip (PyStr.split "," s) in
        Some (map (fun param =>
                     match json_loads param with
                     | Some parsed_param => parsed_param
                     | None => pstr param
                     end) params)
  | None => None
  end.

Definition env_mapping : list (string * string) :=
  [("SNOWFLAKE_ACCOUNT", "account");
   ("SNOWFLAKE_USERNAME", "username");
   ("SNOWFLAKE_TOKEN", "token");
   ("SNOWFLAKE_WAREHOUSE", "warehouse");
   ("SNOWFLAKE_DATABASE", "database");
   ("SNOWFLAKE_SCHEMA", "schema");
   ("SNOWFLAKE_ROLE", "role")].

(** [if value: config[key] = value] *)
Definition set_if_truthy (config : list (string * string))
           (key : string) (value : option string)
  : list (string * string) :=
  match value with
  | Some v => if PyStr.truthy value
              then PyDict.setitem String.eqb config key v
              else config
  | None => config
  end.

(** [load_config_from_env]; [getenv] is [os.getenv]. *)
Definition load_config_from_env (getenv : string -> option string)
  : list (string * string) :=
  fold_left (fun config ek =>
               set_if_truthy config (snd ek) (getenv (fst ek)))
            env_mapping [].

(** [getattr(args, key)] for the connection keys. *)
Definition getattr (args : Args) (key : string) : option string :=
  if key =? "account" then args_account args
  else if key =? "username" then args_username args
  else if key =? "token" then args_token args
  else if key =? "warehouse" then args_warehouse args
  else if key =? "database" then args_database args
  else if key =? "schema" then args_schema args
  else if key =? "role" then args_role args
  else None.

(** The configuration of [main]: the environment, overridden by the
    command line. *)
Definition build_config (args : Args) (getenv : string -> option string)
  : list (string * string) :=
  fold_left (fun config key => set_if_truthy config key (getattr args key))
            ["account"; "username"; "token"; "warehouse"; "database";
             "schema"; "role"]
            (load_config_from_env getenv).

Definition required_params : list string :=
  ["account"; "username"; "token"].

(** [[param for param in required_params if param not in config]] *)
Definition missing_params (config : list (string * string))
  : list string :=
  filter (fun param => negb (PyDict.mem String.eqb config param))
         required_params.

Definition missing_message (missing : list string) : string :=
  "Missing required parameters: " ++ PyStr.join ", " missing
  ++ ". Provide them via command line arguments or environment variables.".

(** The [except] clauses of [main]: the line logged before
    [sys.exit(1)]. *)
Definition error_line (e : exn) : string :=
  match exn_cls e with
  | ConfigurationError => "Configuration error: " ++ exn_str e
  | AuthenticationError => "Authentication error: " ++ exn_str e
  | SnowflakeConnectionError => "Connection error: " ++ exn_str e
  | StoredProcedureError => "Stored procedure error: " ++ exn_str e
  | _ => "Unexpected error: " ++ exn_str e
  end.

Section WithDriver.

Context {W H C : Type} (D : Driver W H C).

(** The body of [with client:], up to the results. *)
Definition run_action (args : Args) : M W H C (list Record_) :=
  match args_query args with
  | Some q =>
      if PyStr.truthy (args_query args) then execute_query D q
      else call_stored_procedure D (args_procedure args)
             (parse_parameters (args_parameters args))
  | None =>
      call_stored_procedure D (args_procedure args)
        (parse_parameters (args_parameters args))
  end.

(** [config[key]] *)
Definition getitem (config : list (string * string)) (key : string)
  : string :=
  match PyDict.get String.eqb config key with
  | Some v => v
  | None => EmptyString
  end.

(** [main], from the parsed arguments to the results: the rendering
    of the results and their writing are not modelled.  It returns
    how the process ends, the driver world and the calls made on the
    driver.  [config[key]] is only reached for keys that are
    present. *)
Definition main (args : Args) (getenv : string -> option string)
           (w : W) : exit * W * list (event H C) :=
  let config := build_config args getenv in
  match missing_params config with
  | (_ :: _) as missing =>
      (Exit1 (error_line
                (Exn ConfigurationError (missing_message missing))),
       w, [])
  | [] =>
      let client :=
        new_client (H := H)
          (getitem config "account") (getitem config "username")
          (getitem config "token")
          (PyDict.get String.eqb config "warehouse")
          (PyDict.get String.eqb config "database")
          (PyDict.get String.eqb config "schema")
          (PyDict.get String.eqb config "role") in
      match with_client D (run_action args)
              {| self := client; world := w; calls := [] |} with
      | (Return results, st) => (Exit0 results, world st, calls st)
      | (Raise e, st) => (Exit1 (error_line e), world st, calls st)
      end
  end.

End WithDriver.

End WithDecoder.

End Cli.

(* ===================================================================== *)
(** * A driver in memory, for concrete runs *)
(* ===================================================================== *)

(** Handles and cursors are numbers.  The driver refuses an empty account
    and an expired token, cannot reach the account [unreachable], does not
    know the procedure [missing_proc], and answers every other statement
    with the columns [A], [B] and two rows, except [CALL no_output()],
    which has no result set. *)
Module MemoryDriver.

Record mem : Type := {
  next_handle : nat;
  open_handles : list nat;
  last_statement : option string
}.

Definition fresh : mem :=
  {| next_handle := 0; open_handles := []; last_statement := None |}.

Definition connect_ (params : list (string * string)) (w : mem)
  : outcome nat * mem :=
  match PyDict.get String.eqb params "account",
        PyDict.get String.eqb params "token" with
  | Some acct, Some tok =>
      if PyStr.is_empty acct
      then (Raise (Exn ProgrammingError "251001: Account must be specified"),
            w)
      else if tok =? "expired-token"
      then (Raise (Exn DatabaseError
                       "250001 (08001): Authentication token has expired."),
            w)
      else if acct =? "unreachable"
      then (Raise (Exn OtherException "Name or service not known"), w)
      else (Return (next_handle w),
            {| next_handle := S (next_handle w);
               open_handles := next_handle w :: open_handles w;
               last_statement := last_statement w |})
  | _, _ => (Raise (Exn ProgrammingError "251001: Account must be specified"),
             w)
  end.

Definition is_closed (h : nat) (w : mem) : bool :=
  negb (existsb (Nat.eqb h) (open_handles w)).

Definition close (h : nat) (w : mem) : outcome unit * mem :=
  (Return tt,
   {| next_handle := next_handle w;
      open_handles := filter (fun h' => negb (Nat.eqb h h')) (open_handles w);
      last_statement := last_statement w |}).

Definition cursor (h : nat) (w : mem) : outcome nat * mem :=
  if is_closed h w
  then (Raise (Exn DatabaseError "250002 (08003): Connection is closed"), w)
  else (Return h, w).

Definition execute (c : nat) (statement : string)
           (binds : option (list PyVal)) (w : mem)
  : outcome unit * mem :=
  if statement =? "CALL missing_proc()"
  then (Raise (Exn ProgrammingError
                   "002140 (42601): Unknown function MISSING_PROC"), w)
  else if statement =? "SELEC 1"
  then (Raise (Exn ProgrammingError
                   "001003 (42000): syntax error line 1 at position 0"), w)
  else (Return tt,
        {| next_handle := next_handle w;
           open_handles := open_handles w;
           last_statement := Some statement |}).

Definition column (n : string) (t : Z) : ResultMetadata :=
  {| name := n; type_code := t; display_size := None;
     internal_size := None; precision := None; scale := None;
     is_nullable := true |}.

Definition description (c : nat) (w : mem)
  : option (list ResultMetadata) :=
  match last_statement w with
  | Some statement =>
      if statement =? "CALL no_output()" then None
      else Some [column "A" 0; column "B" 2]
  | None => None
  end.

Definition fetchall (c : nat) (w : mem)
  : outcome (list (list PyVal)) * mem :=
  (Return [[PInt 1; pstr "x"]; [PInt 2; pstr "y"]], w).

Definition cursor_close (c : nat) (w : mem) : outcome unit * mem :=
  (Return tt, w).

Definition driver : Driver mem nat nat :=
  {| drv_connect := connect_;
     conn_close := close;
     conn_is_closed := is_closed;
     conn_cursor := cursor;
     cur_execute := execute;
     cur_description := description;
     cur_fetchall := fetchall;
     cur_close := cursor_close |}.

(** A client that has not connected yet, on a fresh driver. *)
Definition start (account username token : string)
  : state mem nat nat :=
  {| self := new_client account username token None None None None;
     world := fresh; calls := [] |}.

(** The state after [connect] from [start]. *)
Definition after_connect (account username token : string)
  : state mem nat nat :=
  snd (connect driver (start account username token)).

(** No variable is set in the environment. *)
Definition no_env (var : string) : option string := None.

(** The arguments of a run with the given connection flags and defaults
    everywhere else. *)
Definition flags (account username token : option string) : Cli.Args :=
  {| Cli.args_account := account; Cli.args_username := username;
     Cli.args_token := token; Cli.args_warehouse := None;
     Cli.args_database := None; Cli.args_schema := None;
     Cli.args_role := None; Cli.args_procedure := "sp_example";
     Cli.args_parameters := None; Cli.args_query := None;
     Cli.args_output := Cli.json; Cli.args_file := None;
     Cli.args_verbose := false |}.

End MemoryDriver.

(* ===================================================================== *)
(** * Vocabulary of the statements *)
(* ===================================================================== *)


(** The text a failure message is searched for, as [connect] does. *)
Definition indicates_authentication (message : string) : bool :=
  PyStr.contains "authentication" (PyStr.lower message).


Section Vocabulary.

Context {W H C : Type} (D : Driver W H C).


(** The session holds no handle, or a closed one. *)
Definition Disconnected (st : state W H C) : Prop :=
  connection (self st) = None
  \/ exists h, connection (self st) = Some h
               /\ conn_is_closed D h (world st) = true.

(** The state after a driver call that left the client object alone. *)
Definition after_call (st : state W H C) (w : W) (evs : list (event H C))
  : state W H C :=
  {| self := self st; world := w; calls := (calls st ++ evs)%list |}.

(** What both execution methods do inside [try]: open a cursor, execute,
    fetch, close the cursor. *)
Definition run_statement (statement : string)
           (binds : option (list PyVal)) : M W H C (list Record_) :=
  (cursor <- open_cursor D ;;
   driver_call (EvExecute cursor statement binds)
               (cur_execute D cursor statement binds) ;;
   results <- fetch_results D cursor ;;
   driver_call (EvCursorClose cursor) (cur_close D cursor) ;;
   ret results)%py.



(** Calls of [connection.close()] in a log. *)
Definition close_calls (evs : list (event H C)) : nat :=
  List.length (filter (fun ev => match ev with EvClose _ => true
                                          | _ => false end) evs).

(** The execution methods, as operations on a session. *)
Inductive operation : Type :=
| OpCall (procedure_name : string) (parameters : option (list PyVal))
| OpQuery (query : string).

Definition run_operation (st : state W H C) (op : operation)
  : state W H C :=
  match op with
  | OpCall n ps => snd (call_stored_procedure D n ps st)
  | OpQuery q => snd (execute_query D q st)
  end.

Definition run_operations (ops : list operation) (st : state W H C)
  : state W H C :=
  fold_left run_operation ops st.

(** [connection.close()] returns, whatever the handle and the world (the
    connector logs the failures it meets while closing and goes on). *)
Definition close_returns : Prop :=
  forall h w, exists w', conn_close D h w = (Return tt, w').

(** What the client relies on for [is_connected]: the handle a
    successful connect returns is reported open, and no call on a cursor
    closes a connection. *)
Definition keeps_handles_open : Prop :=
  (forall params w h w',
      drv_connect D params w = (Return h, w') ->
      conn_is_closed D h w' = false)
  /\ (forall h w, conn_is_closed D h w = false ->
        (forall h', conn_is_closed D h (snd (conn_cursor D h' w)) = false)
        /\ (forall c statement binds,
               conn_is_closed D h (snd (cur_execute D c statement binds w))
               = false)
        /\ (forall c, conn_is_closed D h (snd (cur_fetchall D c w)) = false)
        /\ (forall c, conn_is_closed D h (snd (cur_close D c w)) = false)).

End Vocabulary.

(** A connection key is supplied when its flag or its environment
    variable holds a non-empty text. *)
Definition supplied (args : Cli.Args) (getenv : string -> option string)
           (key var : string) : bool :=
  PyStr.truthy (Cli.getattr args key) || PyStr.truthy (getenv var).


(** A double quote, for texts that hold JSON string literals. *)
Definition dq : string := String "034"%char EmptyString.

(* ===================================================================== *)
(** * cli.py: the table output *)
(* ===================================================================== *)

(** The branch of [main] that renders the results as a table.  [py_str]
    is Python's [str] on a cell. *)
Module CliOutput.

Definition tab : string := String "009"%char EmptyString.

Definition nl : string := String "010"%char EmptyString.

Section WithStr.

Context (py_str : PyVal -> string).

(** [str(row.get(header, ''))] *)
Definition table_cell (row : Record_) (header : string) : string :=
  match PyDict.get String.eqb row header with
  | Some cell => py_str cell
  | None => EmptyString
  end.

(** ['\t'.join(str(row.get(header, '')) for header in headers) + '\n'] *)
Definition table_line (headers : list string) (row : Record_) : string :=
  PyStr.join tab (map (table_cell row) headers) ++ nl.

(** The value of [output] when [args.output == 'table']. *)
Definition format_table (results : list Record_) : string :=
  match results with
  | first :: _ =>
      let headers := PyDict.keys first in
      fold_left (fun output row => output ++ table_line headers row)
                results (PyStr.join tab headers ++ nl)
  | [] => "No results returned." ++ nl
  end.

End WithStr.

End CliOutput.

(* ===================================================================== *)
(** * examples/basic_usage.py and examples/error_handling.py *)
(* ===================================================================== *)

(** The patterns of the examples, as their functions are written.  Both
    scripts start by importing [AuthenticationError] from the package,
    whose [__init__] binds [SnowflakeClient], [SnowflakeConnectionError]
    and [StoredProcedureError] only; the definitions below describe the
    functions from the point where they are called. *)

Section Patterns.

Context {W H C : Type} (D : Driver W H C).

Local Open Scope py_scope.

(** [try: body  finally: final]: [final] runs however [body] ends; an
    exception of [final] replaces the outcome of [body]. *)
Definition try_finally {A : Type} (body : M W H C A) (final : M W H C unit)
  : M W H C A :=
  fun st =>
    let (r, st1) := body st in
    match final st1 with
    | (Return _, st2) => (r, st2)
    | (Raise e, st2) => (Raise e, st2)
    end.

(** The manual connection management of [basic_usage.main]:
    [client.connect()], then [try: body  finally: client.disconnect()]. *)
Definition manual_connection {A : Type} (body : M W H C A) : M W H C A :=
  connect D ;; try_finally body (disconnect D).

(** [call_procedure_with_fallback] of [error_handling.py]: only a
    [StoredProcedureError] of the primary call leads to the fallback. *)
Definition call_procedure_with_fallback (primary_proc fallback_proc : string)
           (params : option (list PyVal)) : M W H C (list Record_) :=
  fun st =>
    match call_stored_procedure D primary_proc params st with
    | (Return results, st1) => (Return results, st1)
    | (Raise e, st1) =>
        match exn_cls e with
        | StoredProcedureError =>
            call_stored_procedure D fallback_proc params st1
        | _ => (Raise e, st1)
        end
    end.

End Patterns.

Module ErrorHandling.

Section Retry.

(** [func] is a callable without arguments; it acts on a state of its
    own. *)
Context {S A : Type}.

(** The loop [for attempt in range(max_retries)], from [attempt] on, with
    [todo] rounds to go; [slept] are the delays given to [time.sleep]. *)
Fixpoint retry_loop (func : S -> outcome A * S) (max_retries base_delay : Z)
         (attempt : Z) (todo : nat) (s : S) (slept : list Z)
  : outcome (option A) * S * list Z :=
  match todo with
  | O => (Return None, s, slept)
  | Datatypes.S todo' =>
      match func s with
      | (Return result, s') => (Return (Some result), s', slept)
      | (Raise e, s') =>
          if (attempt =? max_retries - 1)%Z then (Raise e, s', slept)
          else retry_loop func max_retries base_delay (attempt + 1)%Z todo' s'
                          (slept ++ [base_delay * 2 ^ attempt]%Z)%list
      end
  end.

(** [retry_with_backoff(func, max_retries, base_delay)]; when the loop
    ends without a [return] the function returns [None]. *)
Definition retry_with_backoff (func : S -> outcome A * S)
           (max_retries base_delay : Z) (s : S)
  : outcome (option A) * S * list Z :=
  retry_loop func max_retries base_delay 0%Z (Z.to_nat max_retries) s [].



End Retry.

Section Breaker.

Context {S A : Type}.

(** A [CircuitBreaker] object. *)
Record CircuitBreaker : Type := {
  cb_failure_threshold : Z;
  cb_recovery_timeout : Z;
  cb_failure_count : Z;
  cb_last_failure_time : option Z;
  cb_state : string
}.

(** [CircuitBreaker.__init__] *)
Definition new_breaker (failure_threshold recovery_timeout : Z)
  : CircuitBreaker :=
  {| cb_failure_threshold := failure_threshold;
     cb_recovery_timeout := recovery_timeout;
     cb_failure_count := 0;
     cb_last_failure_time := None;
     cb_state := "CLOSED" |}.

(** What [time.time()] raises in the methods of the class: the module
    binds no name [time] (its only [import time] is local to
    [retry_with_backoff]). *)
Definition time_unbound : exn :=
  Exn OtherException "name 'time' is not defined".

(** [CircuitBreaker.call(func)].  In the [OPEN] state the first thing
    evaluated is [time.time()].  When [func] raises, the handler counts the
    failure and then evaluates [time.time()], so the assignments after it
    are not reached. *)
Definition call (func : S -> outcome A * S) (self : CircuitBreaker) (s : S)
  : outcome A * CircuitBreaker * S :=
  if cb_state self =? "OPEN" then (Raise time_unbound, self, s)
  else
    match func s with
    | (Return result, s') =>
        (Return result,
         {| cb_failure_threshold := cb_failure_threshold self;
            cb_recovery_timeout := cb_recovery_timeout self;
            cb_failure_count := 0;
            cb_last_failure_time := cb_last_failure_time self;
            cb_state := "CLOSED" |},
         s')
    | (Raise e, s') =>
        (Raise time_unbound,
         {| cb_failure_threshold := cb_failure_threshold self;
            cb_recovery_timeout := cb_recovery_timeout self;
            cb_failure_count := cb_failure_count self + 1;
            cb_last_failure_time := cb_last_failure_time self;
            cb_state := cb_state self |},
         s')
    end.

(** One call after the other, each with its own [func]. *)
Definition call_all (funcs : list (S -> outcome A * S))
           (self : CircuitBreaker) (s : S) : CircuitBreaker * S :=
  fold_left (fun bs func => let '(_, self', s') := call func (fst bs) (snd bs)
                            in (self', s'))
            funcs (self, s).

End Breaker.

End ErrorHandling.

(* ===================================================================== *)
(** * test_setup.py *)
(* ===================================================================== *)

(** The console output of the script is not modelled. *)
Module TestSetup.

(** The dictionary of [load_config]: every key is present, with the value
    of its environment variable or [None]. *)
Definition load_config (getenv : string -> option string)
  : list (string * option string) :=
  [("account", getenv "SNOWFLAKE_ACCOUNT");
   ("username", getenv "SNOWFLAKE_USERNAME");
   ("token", getenv "SNOWFLAKE_TOKEN");
   ("database", getenv "SNOWFLAKE_DATABASE");
   ("schema", getenv "SNOWFLAKE_SCHEMA");
   ("warehouse", getenv "SNOWFLAKE_WAREHOUSE");
   ("role", getenv "SNOWFLAKE_ROLE")].

(** [config.get(key)] *)
Definition config_get (config : list (string * option string))
           (key : string) : option string :=
  match PyDict.get String.eqb config key with
  | Some value => value
  | None => None
  end.

(** [[key for key in required if not config.get(key)]] *)
Definition missing (config : list (string * option string)) : list string :=
  filter (fun key => negb (PyStr.truthy (config_get config key)))
         ["account"; "username"; "token"].

(** [validate_config] *)
Definition validate_config (config : list (string * option string)) : bool :=
  match missing config with
  | _ :: _ => false
  | [] => true
  end.

(** [config[key]] for a required key.  The tests run after
    [validate_config] has found the three values to be non-empty texts; a
    value [None] is outside the model and read as the empty text. *)
Definition required_text (config : list (string * option string))
           (key : string) : string :=
  match config_get config key with
  | Some text => text
  | None => EmptyString
  end.

(** [str(KeyError(k))] for a number [k], given as its decimal text. *)
Definition key_error (k : string) : exn := Exn OtherException k.

Section WithDriver.

Context {W H C : Type} (D : Driver W H C).

Local Open Scope py_scope.

(** The client each test creates from the configuration. *)
Definition client_of (config : list (string * option string))
  : SnowflakeClient H :=
  new_client (required_text config "account")
             (required_text config "username")
             (required_text config "token")
             (config_get config "warehouse")
             (config_get config "database")
             (config_get config "schema")
             (config_get config "role").

(** [row[k]] for a number [k]: the keys of a record are column names, so
    the lookup raises [KeyError]. *)
Definition getitem_number {A : Type} (row : Record_) (k : string)
  : M W H C A :=
  raise (key_error k).

(** [for row in rows: f(row)] *)
Fixpoint for_each (rows : list Record_) (f : Record_ -> M W H C unit)
  : M W H C unit :=
  match rows with
  | [] => ret tt
  | row :: rest => f row ;; for_each rest f
  end.

(** A test: [try: import; client = ...; with client: body] and
    [except Exception: return False].  [importable] says whether
    [from sf_restcalls import SnowflakeClient] succeeds.  It gives the
    value returned, the driver world and the calls made on the driver. *)
Definition run_test (importable : bool)
           (config : list (string * option string)) (body : M W H C bool)
           (w : W) : bool * W * list (event H C) :=
  if importable then
    match with_client D body
            {| self := client_of config; world := w; calls := [] |} with
    | (Return passed, st) => (passed, world st, calls st)
    | (Raise _, st) => (false, world st, calls st)
    end
  else (false, w, []).

Definition context_query : string :=
  "SELECT CURRENT_USER(), CURRENT_ROLE(), CURRENT_DATABASE(), CURRENT_SCHEMA(), CURRENT_WAREHOUSE()".

(** The [with] block of [test_connection]: the context is printed from
    [result[0][0]] to [result[0][4]] when the first record is not empty. *)
Definition test_connection_body : M W H C bool :=
  result <- execute_query D context_query ;;
  match result with
  | first :: _ =>
      match first with
      | _ :: _ =>
          (user <- getitem_number (A := PyVal) first "0" ;;
           role <- getitem_number (A := PyVal) first "1" ;;
           database <- getitem_number (A := PyVal) first "2" ;;
           schema <- getitem_number (A := PyVal) first "3" ;;
           warehouse <- getitem_number (A := PyVal) first "4" ;;
           ret true)
      | [] => ret true
      end
  | [] => ret false
  end.

(** [test_connection] *)
Definition test_connection (importable : bool)
           (config : list (string * option string)) (w : W)
  : bool * W * list (event H C) :=
  run_test importable config test_connection_body w.

(** The [with] block of [test_sp_example]. *)
Definition test_sp_example_body : M W H C bool :=
  result <- call_sp_example D None ;;
  match result with
  | _ :: _ => ret true
  | [] => ret false
  end.

(** [test_sp_example] *)
Definition test_sp_example (importable : bool)
           (config : list (string * option string)) (w : W)
  : bool * W * list (event H C) :=
  run_test importable config test_sp_example_body w.

(** The [with] block of [test_procedures_exist]: each row is printed from
    [row[1]]. *)
Definition test_procedures_exist_body : M W H C bool :=
  result <- execute_query D "SHOW PROCEDURES LIKE 'sp_%'" ;;
  match result with
  | _ :: _ =>
      for_each result
               (fun row => name <- getitem_number (A := PyVal) row "1" ;;
                           ret tt) ;;
      ret true
  | [] => ret false
  end.

(** [test_procedures_exist] *)
Definition test_procedures_exist (importable : bool)
           (config : list (string * option string)) (w : W)
  : bool * W * list (event H C) :=
  run_test importable config test_procedures_exist_body w.

(** [test_import] *)
Definition test_import (importable : bool) : bool := importable.

(** [main], up to the status given to [sys.exit]: 1 when the
    configuration is not valid, else 0 when all four tests pass and 1
    otherwise.  With the status come the driver world and the calls of the
    tests, in order. *)
Definition main (importable : bool) (getenv : string -> option string)
           (w : W) : Z * W * list (event H C) :=
  let config := load_config getenv in
  if negb (validate_config config) then (1%Z, w, [])
  else
    let p1 := test_import importable in
    let '(p2, w2, c2) := test_connection importable config w in
    let '(p3, w3, c3) := test_procedures_exist importable config w2 in
    let '(p4, w4, c4) := test_sp_example importable config w3 in
    let passed :=
      ((if p1 then 1 else 0) + (if p2 then 1 else 0)
       + (if p3 then 1 else 0) + (if p4 then 1 else 0))%Z in
    ((if (passed =? 4)%Z then 0 else 1)%Z, w4, (c2 ++ c3 ++ c4)%list).

End WithDriver.

End TestSetup.

(* ===================================================================== *)
(** * More vocabulary *)
(* ===================================================================== *)



Section MoreVocabulary.

Context {W H C : Type}.

(** The calls made on a cursor or to obtain one. *)
Definition is_cursor_event (ev : event H C) : bool :=
  match ev with
  | EvCursor _ | EvExecute _ _ _ | EvFetchall _ | EvCursorClose _ => true
  | EvConnect _ | EvClose _ => false
  end.

(** Calls of [cursor.close()] in a log. *)
Definition cursor_close_calls (evs : list (event H C)) : nat :=
  List.length (filter (fun ev => match ev with EvCursorClose _ => true
                                          | _ => false end) evs).

End MoreVocabulary.


(** An environment that sets the account only. *)
Definition account_only (var : string) : option string :=
  if var =? "SNOWFLAKE_ACCOUNT" then Some "acme" else None.

(** An environment that sets the three required variables. *)
Definition required_only (var : string) : option string :=
  if var =? "SNOWFLAKE_ACCOUNT" then Some "acme"
  else if var =? "SNOWFLAKE_USERNAME" then Some "ann"
  else if var =? "SNOWFLAKE_TOKEN" then Some "secret"
  else None.

(** The client [main] creates from its configuration. *)
Definition main_client {H : Type} (args : Cli.Args)
           (getenv : string -> option string) : SnowflakeClient H :=
  let config := Cli.build_config args getenv in
  new_client (Cli.getitem config "account") (Cli.getitem config "username")
             (Cli.getitem config "token")
             (PyDict.get String.eqb config "warehouse")
             (PyDict.get String.eqb config "database")
             (PyDict.get String.eqb config "schema")
             (PyDict.get String.eqb config "role").


(** What the flag or, failing it, the environment variable supplies. *)
Definition flag_or_env (flag env : option string) : option string :=
  if PyStr.truthy flag then flag
  else if PyStr.truthy env then env else None.

(* ===================================================================== *)
(** * Facts about strings *)
(* ===================================================================== *)

Section StringFacts.

Import PyStr.

Lemma startswith_app (p s : string) : startswith p (p ++ s) = true.
Proof.
  induction p as [|c p IH]; simpl; [reflexivity|].
  now rewrite Ascii.eqb_refl, IH.
Qed.

Lemma startswith_contains (n hay : string) :
  startswith n hay = true -> contains n hay = true.
Proof. intros Hp. destruct hay; cbn [contains]; now rewrite Hp. Qed.

Lemma contains_prefix (n s : string) : contains n (n ++ s) = true.
Proof. apply startswith_contains, startswith_app. Qed.

Lemma app_empty_r (s : string) : s ++ "" = s.
Proof. induction s as [|c s IH]; simpl; [|rewrite IH]; reflexivity. Qed.

Lemma contains_refl (n : string) : contains n n = true.
Proof.
  pose proof (contains_prefix n "") as P. now rewrite app_empty_r in P.
Qed.

Lemma contains_skip (n pre hay : string) :
  contains n hay = true -> contains n (pre ++ hay) = true.
Proof.
  intros Hc. induction pre as [|c pre IH]; simpl; [exact Hc|].
  rewrite IH. apply orb_true_r.
Qed.

(** A text occurs in whatever is built around it. *)
Lemma contains_middle (n pre post : string) :
  contains n (pre ++ n ++ post) = true.
Proof. apply contains_skip, contains_prefix. Qed.

Lemma contains_suffix (n pre : string) : contains n (pre ++ n) = true.
Proof. apply contains_skip, contains_refl. Qed.










End StringFacts.

(** Closes a goal that says a text occurs in a message built around it. *)
Ltac solve_contains :=
  lazymatch goal with
  | |- PyStr.contains ?n (?pre ++ ?n) = true =>
      exact (contains_suffix n pre)
  | |- PyStr.contains ?n (?pre ++ ?n ++ ?post) = true =>
      exact (contains_middle n pre post)
  | |- PyStr.contains ?n (?n ++ ?post) = true =>
      exact (contains_prefix n post)
  | |- PyStr.contains ?n (?a ++ ?b ++ ?c ++ ?n) = true =>
      exact (contains_skip n a _ (contains_skip n b _ (contains_suffix n c)))
  end.

(* ===================================================================== *)
(** * Concrete runs of the helpers *)
(* ===================================================================== *)

Example lower_mixed_case :
  PyStr.lower "250001: AUTHENTICATION Failed [X]"
  = "250001: authentication failed [x]".
Proof. reflexivity. Qed.

Example strip_blanks : PyStr.strip "  sp example  " = "sp example".
Proof. reflexivity. Qed.

Example split_keeps_empty_pieces :
  PyStr.split "," "a,,b," = ["a"; ""; "b"; ""].
Proof. reflexivity. Qed.

Example contains_inside :
  PyStr.contains "authentication" "oauth authentication failed" = true
  /\ PyStr.contains "authentication" "network unreachable" = false.
Proof. split; reflexivity. Qed.

Example placeholders_three : placeholders 3 = "%s, %s, %s".
Proof. reflexivity. Qed.

Example loads_scalars :
  Json.loads "123" = Some (PInt 123)
  /\ Json.loads "-7" = Some (PInt (-7))
  /\ Json.loads "1.50" = Some (PFloat "1.50")
  /\ Json.loads "2e3" = Some (PFloat "2e3")
  /\ Json.loads "true" = Some (PBool true)
  /\ Json.loads "false" = Some (PBool false)
  /\ Json.loads "null" = Some PNone.
Proof. repeat split; reflexivity. Qed.

Example loads_refuses :
  Json.loads "hello" = None
  /\ Json.loads "" = None
  /\ Json.loads "0123" = None
  /\ Json.loads "1." = None
  /\ Json.loads "True" = None
  /\ Json.loads "12 34" = None
  /\ Json.loads "[1" = None.
Proof. repeat split; reflexivity. Qed.

Example loads_nested :
  Json.loads ("{" ++ dq ++ "a" ++ dq ++ ": [null, 2]}")
  = Some (PDict [(PyStr.codepoints "a", PList [PNone; PInt 2])])
  /\ Json.loads (dq ++ "a\tb\u00e9" ++ dq)
     = Some (PStr [97; 9; 98; 233]%N)
  /\ Json.loads "[[ ]]" = Some (PList [PList []]).
Proof. repeat split; reflexivity. Qed.

Example row_dict_duplicate_name :
  row_dict ["A"; "B"; "A"] [PInt 1; PInt 2; PInt 3]
  = [("A", PInt 3); ("B", PInt 2)].
Proof. reflexivity. Qed.

Example main_calls_the_default_procedure :
  Cli.main Json.loads MemoryDriver.driver
    (MemoryDriver.flags (Some "acme") (Some "ann") (Some "secret"))
    MemoryDriver.no_env MemoryDriver.fresh
  = (Cli.Exit0 [[("A", PInt 1); ("B", pstr "x")];
                [("A", PInt 2); ("B", pstr "y")]],
     {| MemoryDriver.next_handle := 1; MemoryDriver.open_handles := [];
        MemoryDriver.last_statement := Some "CALL sp_example()" |},
     [EvConnect [("account", "acme"); ("user", "ann"); ("token", "secret");
                 ("authenticator", "oauth")];
      EvCursor 0; EvExecute 0 "CALL sp_example()" None; EvFetchall 0;
      EvCursorClose 0; EvClose 0]).
Proof. reflexivity. Qed.

Example main_reports_an_expired_token :
  Cli.main Json.loads MemoryDriver.driver
    (MemoryDriver.flags (Some "acme") (Some "ann") (Some "expired-token"))
    MemoryDriver.no_env MemoryDriver.fresh
  = (Cli.Exit1 "Authentication error: Authentication failed: 250001 (08001): Authentication token has expired.",
     MemoryDriver.fresh,
     [EvConnect [("account", "acme"); ("user", "ann");
                 ("token", "expired-token"); ("authenticator", "oauth")]]).
Proof. reflexivity. Qed.

(* ===================================================================== *)
(** * Facts about dictionaries *)
(* ===================================================================== *)

Section DictFacts.

Import PyDict.

Context {K V : Type} (eqb : K -> K -> bool).
Hypothesis eqb_eq : forall a b, eqb a b = true <-> a = b.

Lemma eqb_refl (a : K) : eqb a a = true.
Proof. now apply eqb_eq. Qed.

Lemma eqb_neq (a b : K) : eqb a b = false <-> a <> b.
Proof.
  split; intro Hn.
  - intro E. apply eqb_eq in E. congruence.
  - destruct (eqb a b) eqn:E; [apply eqb_eq in E; contradiction | reflexivity].
Qed.

Lemma get_setitem (d : list (K * V)) (k k' : K) (v : V) :
  get eqb (setitem eqb d k v) k'
  = if eqb k k' then Some v else get eqb d k'.
Proof.
  induction d as [|[k0 v0] d IH]; simpl; [reflexivity|].
  destruct (eqb k0 k) eqn:E0; simpl.
  - apply eqb_eq in E0. subst k0. now destruct (eqb k k').
  - rewrite IH. destruct (eqb k k') eqn:E1; [|reflexivity].
    apply eqb_eq in E1. subst k'. now rewrite E0.
Qed.

Lemma get_app (a b : list (K * V)) (k : K) :
  get eqb (a ++ b)%list k
  = match get eqb a k with Some v => Some v | None => get eqb b k end.
Proof.
  induction a as [|[k0 v0] a IH]; simpl; [reflexivity|].
  now destruct (eqb k0 k).
Qed.

Lemma get_fold (ps acc : list (K * V)) (k : K) :
  get eqb (fold_left (fun d kv => setitem eqb d (fst kv) (snd kv)) ps acc) k
  = match get eqb (rev ps) k with
    | Some v => Some v
    | None => get eqb acc k
    end.
Proof.
  revert acc. induction ps as [|[k0 v0] ps IH]; intros acc; simpl;
    [reflexivity|].
  rewrite IH, get_app, get_setitem. simpl.
  destruct (get eqb (rev ps) k); [reflexivity|].
  now destruct (eqb k0 k).
Qed.

(** Looking a key up in [dict(pairs)] finds its last pair. *)
Lemma get_of_pairs (ps : list (K * V)) (k : K) :
  get eqb (of_pairs eqb ps) k = get eqb (rev ps) k.
Proof.
  unfold of_pairs. rewrite get_fold. now destruct (get eqb (rev ps) k).
Qed.




Lemma keys_setitem (d : list (K * V)) (k : K) (v : V) :
  keys (setitem eqb d k v)
  = if existsb (eqb k) (keys d) then keys d else (keys d ++ [k])%list.
Proof.
  induction d as [|[k0 v0] d IH]; simpl; [reflexivity|].
  destruct (eqb k0 k) eqn:E0.
  - apply eqb_eq in E0. subst k0. now rewrite eqb_refl.
  - assert (E1 : eqb k k0 = false)
      by (apply eqb_neq; apply eqb_neq in E0; congruence).
    rewrite E1. simpl. fold (keys (setitem eqb d k v)). rewrite IH.
    fold (keys d). now destruct (existsb (eqb k) (keys d)).
Qed.


End DictFacts.

Section RowFacts.

Lemma string_eqb_eq (a b : string) : String.eqb a b = true <-> a = b.
Proof. apply String.eqb_eq. Qed.





End RowFacts.

(* ===================================================================== *)
(** * Facts about the session client *)
(* ===================================================================== *)

Ltac unfold_monad :=
  unfold try_except, bind, gets, ret, raise, driver_call, modify_self in *.

Ltac unfold_client :=
  unfold call_stored_procedure, execute_query, call_stored_procedure_body,
    execute_query_body, run_statement, fetch_results, open_cursor,
    is_connected, connected, connect, disconnect in *;
  unfold_monad.

Section ClientFacts.

Context {W H C : Type} (D : Driver W H C).

Implicit Types (st : state W H C) (h : H) (c : C) (e : exn).


Lemma disconnected_not_connected st :
  Disconnected D st <-> connected D st = false.
Proof.
  unfold Disconnected, connected. split.
  - intros [Hn | [h [Hc Hcl]]]; [now rewrite Hn | now rewrite Hc, Hcl].
  - destruct (connection (self st)) as [h|]; [|now left].
    intros Hneg. right. exists h. split; [reflexivity|].
    now destruct (conn_is_closed D h (world st)).
Qed.

(** Both [try] blocks are the same run, on their own statement. *)
Lemma call_body_run (procedure_name : string)
      (parameters : option (list PyVal)) :
  call_stored_procedure_body D procedure_name parameters
  = run_statement D (fst (call_statement procedure_name parameters))
                  (snd (call_statement procedure_name parameters)).
Proof.
  unfold call_stored_procedure_body, run_statement.
  now destruct (call_statement procedure_name parameters).
Qed.

Lemma query_body_run (query : string) :
  execute_query_body D query = run_statement D query None.
Proof. reflexivity. Qed.

(** From a connected session the methods run their [try] block. *)
Lemma call_when_connected st (procedure_name : string)
      (parameters : option (list PyVal)) :
  connected D st = true ->
  call_stored_procedure D procedure_name parameters st
  = match call_stored_procedure_body D procedure_name parameters st with
    | (Return results, st') => (Return results, st')
    | (Raise e, st') =>
        (Raise (Exn StoredProcedureError
                    ((if is_ProgrammingError e
                      then "Error executing stored procedure "
                      else "Unexpected error executing stored procedure ")
                     ++ procedure_name ++ ": " ++ exn_str e)), st')
    end.
Proof.
  intros Hc. unfold call_stored_procedure, is_connected. unfold_monad.
  rewrite Hc. simpl.
  destruct (call_stored_procedure_body D procedure_name parameters st)
    as [[results|e] st']; [reflexivity|].
  now destruct (is_ProgrammingError e).
Qed.

Lemma query_when_connected st (query : string) :
  connected D st = true ->
  execute_query D query st
  = match execute_query_body D query st with
    | (Return results, st') => (Return results, st')
    | (Raise e, st') =>
        (Raise (Exn StoredProcedureError
                    ((if is_ProgrammingError e
                      then "Error executing query: "
                      else "Unexpected error executing query: ")
                     ++ exn_str e)), st')
    end.
Proof.
  intros Hc. unfold execute_query, is_connected. unfold_monad.
  rewrite Hc. simpl.
  destruct (execute_query_body D query st) as [[results|e] st'];
    [reflexivity|].
  now destruct (is_ProgrammingError e).
Qed.





(** The execution methods leave the client object alone. *)
Lemma run_statement_self st (statement : string)
      (binds : option (list PyVal)) :
  self (snd (run_statement D statement binds st)) = self st.
Proof.
  unfold_client. simpl.
  destruct (connection (self st)) as [h|]; simpl; [|reflexivity].
  destruct (conn_cursor D h (world st)) as [[c|e] w1]; simpl;
    [|reflexivity].
  destruct (cur_execute D c statement binds w1) as [[[]|e] w2]; simpl;
    [|reflexivity].
  destruct (cur_description D c w2) as [[|d ds]|]; simpl.
  - now destruct (cur_close D c w2) as [[[]|e] w4].
  - destruct (cur_fetchall D c w2) as [[rows|e] w3]; simpl; [|reflexivity].
    now destruct (cur_close D c w3) as [[[]|e] w4].
  - now destruct (cur_close D c w2) as [[[]|e] w4].
Qed.

End ClientFacts.

(* ===================================================================== *)
(** * connect: the classification of failures *)
(* ===================================================================== *)

(** C2.  When the driver fails during [connect], the exception that leaves
    [connect] is an [AuthenticationError] if the failure is a database
    error whose lower-cased message holds "authentication", and a
    [SnowflakeConnectionError] in every other case (a database error with
    another message, or any other exception).  Its message ends with the
    message of the driver.  Conversely every exception that leaves
    [connect] has one of these two classes and wraps a failure of the
    driver: none is left raw. *)
Theorem connect_failure_classified {W H C : Type} (D : Driver W H C)
        (st : state W H C) :
  (forall e w',
      drv_connect D (connection_params (self st)) (world st) = (Raise e, w') ->
      exists e',
        connect D st
        = (Raise e',
           after_call st w' [EvConnect (connection_params (self st))])
        /\ exn_cls e'
           = (if is_DatabaseError e && indicates_authentication (exn_str e)
              then AuthenticationError else SnowflakeConnectionError)
        /\ exn_str e'
           = (if is_DatabaseError e
              then if indicates_authentication (exn_str e)
                   then "Authentication failed: "
                   else "Failed to connect to Snowflake: "
              else "Unexpected error connecting to Snowflake: ")
             ++ exn_str e
        /\ PyStr.contains (exn_str e) (exn_str e') = true)
  /\ (forall e' st',
         connect D st = (Raise e', st') ->
         (exn_cls e' = AuthenticationError
          \/ exn_cls e' = SnowflakeConnectionError)
         /\ exists e w',
             drv_connect D (connection_params (self st)) (world st)
             = (Raise e, w')
             /\ PyStr.contains (exn_str e) (exn_str e') = true).
Proof.
  split.
  - intros e w' Hdrv. unfold connect. unfold_monad.
    cbn -[String.append PyStr.contains PyStr.lower]. rewrite Hdrv.
    unfold indicates_authentication, after_call.
    destruct (is_DatabaseError e);
      [destruct (PyStr.contains "authentication" (PyStr.lower (exn_str e)))|];
      cbn -[String.append PyStr.contains PyStr.lower];
      eexists; (split; [reflexivity|]); cbn [exn_str exn_cls];
      (split; [reflexivity|]); (split; [reflexivity|]);
      solve_contains.
  - intros e' st'. unfold connect. unfold_monad.
    cbn -[String.append PyStr.contains PyStr.lower].
    destruct (drv_connect D (connection_params (self st)) (world st))
      as [[h|e] w'] eqn:Hdrv; [discriminate|].
    destruct (is_DatabaseError e);
      [destruct (PyStr.contains "authentication" (PyStr.lower (exn_str e)))|];
      cbn -[String.append PyStr.contains PyStr.lower];
      intros Heq; injection Heq as <- <-; cbn [exn_str exn_cls];
      (split; [auto|]); exists e, w'; (split; [reflexivity|]);
      first [ exact (contains_suffix (exn_str e) "Authentication failed: ")
            | exact (contains_suffix (exn_str e)
                       "Failed to connect to Snowflake: ")
            | exact (contains_suffix (exn_str e)
                       "Unexpected error connecting to Snowflake: ") ].
Qed.

(** The in-memory driver refuses an expired token with a database error
    that speaks of authentication. *)
Lemma connect_failure_classified_witness :
  exists e',
    connect MemoryDriver.driver (MemoryDriver.start "acme" "ann" "expired-token")
    = (Raise e',
       after_call (MemoryDriver.start "acme" "ann" "expired-token")
                  MemoryDriver.fresh
                  [EvConnect [("account", "acme"); ("user", "ann");
                              ("token", "expired-token");
                              ("authenticator", "oauth")]])
    /\ exn_cls e' = AuthenticationError
    /\ exn_str e'
       = "Authentication failed: 250001 (08001): Authentication token has expired."
    /\ PyStr.contains "250001 (08001): Authentication token has expired."
                      (exn_str e') = true.
Proof.
  exact (proj1 (connect_failure_classified MemoryDriver.driver
                  (MemoryDriver.start "acme" "ann" "expired-token"))
               (Exn DatabaseError
                    "250001 (08001): Authentication token has expired.")
               MemoryDriver.fresh eq_refl).
Defined.

(* ===================================================================== *)
(** * Execution on a disconnected session *)
(* ===================================================================== *)

(** C5.  On a session that holds no handle, or a closed one, both
    execution methods raise [SnowflakeConnectionError] with the text
    "Not connected to Snowflake. Call connect() first."; the state is the
    one before the call, so no call was made on the driver and its world
    did not move. *)
Theorem disconnected_session_raises {W H C : Type} (D : Driver W H C)
        (st : state W H C) (procedure_name query : string)
        (parameters : option (list PyVal)) :
  Disconnected D st ->
  call_stored_procedure D procedure_name parameters st
  = (Raise not_connected, st)
  /\ execute_query D query st = (Raise not_connected, st)
  /\ exn_cls not_connected = SnowflakeConnectionError
  /\ PyStr.contains "Not connected" (exn_str not_connected) = true.
Proof.
  intros Hd. apply disconnected_not_connected in Hd.
  unfold call_stored_procedure, execute_query, is_connected. unfold_monad.
  rewrite Hd. repeat split.
Qed.

(** A client that never connected. *)
Lemma disconnected_session_raises_witness :
  call_stored_procedure MemoryDriver.driver "sp_example" (Some [PInt 1])
                        (MemoryDriver.start "acme" "ann" "secret")
  = (Raise not_connected, MemoryDriver.start "acme" "ann" "secret")
  /\ execute_query MemoryDriver.driver "SELECT 1"
                   (MemoryDriver.start "acme" "ann" "secret")
     = (Raise not_connected, MemoryDriver.start "acme" "ann" "secret")
  /\ exn_cls not_connected = SnowflakeConnectionError
  /\ PyStr.contains "Not connected" (exn_str not_connected) = true.
Proof.
  apply (disconnected_session_raises MemoryDriver.driver).
  left. reflexivity.
Defined.

(* ===================================================================== *)
(** * The CALL statement *)
(* ===================================================================== *)




(* ===================================================================== *)
(** * Results *)
(* ===================================================================== *)



(* ===================================================================== *)
(** * Failures during execution *)
(* ===================================================================== *)




(* ===================================================================== *)
(** * The life of a connection *)
(* ===================================================================== *)

Section ConnectionFacts.

Context {W H C : Type} (D : Driver W H C).

Implicit Types (st : state W H C) (h : H).

(** What one call of [disconnect] does: at most one [close()], on the
    handle the session holds; when it returns, no handle is left. *)
Lemma disconnect_effect st (rd : outcome unit) (st3 : state W H C) :
  disconnect D st = (rd, st3) ->
  calls st3
  = (calls st ++ match connection (self st) with
                 | Some h => [EvClose h]
                 | None => []
                 end)%list
  /\ (forall u, rd = Return u -> connection (self st3) = None).
Proof.
  unfold_client. simpl.
  destruct (connection (self st)) as [h|] eqn:Hc; simpl.
  - destruct (conn_close D h (world st)) as [[[]|e] w']; simpl;
      intros Heq; injection Heq as <- <-; simpl;
      (split; [reflexivity|]); [reflexivity | discriminate].
  - intros Heq. injection Heq as <- <-. rewrite app_nil_r.
    split; [reflexivity | intros; exact Hc].
Qed.

Lemma close_calls_app (a b : list (event H C)) :
  close_calls (a ++ b)%list = close_calls a + close_calls b.
Proof. unfold close_calls. now rewrite filter_app, length_app. Qed.

Lemma call_state st (procedure_name : string)
      (parameters : option (list PyVal)) :
  connected D st = true ->
  snd (call_stored_procedure D procedure_name parameters st)
  = snd (run_statement D (fst (call_statement procedure_name parameters))
                       (snd (call_statement procedure_name parameters)) st).
Proof.
  intros Hc. rewrite call_when_connected, call_body_run by exact Hc.
  now destruct (run_statement D _ _ st) as [[results|e] st'].
Qed.

Lemma query_state st (query : string) :
  connected D st = true ->
  snd (execute_query D query st) = snd (run_statement D query None st).
Proof.
  intros Hc. rewrite query_when_connected, query_body_run by exact Hc.
  now destruct (run_statement D _ _ st) as [[results|e] st'].
Qed.

(** Under the contract of the driver a run closes no connection. *)
Lemma run_statement_keeps_open st h (statement : string)
      (binds : option (list PyVal)) :
  keeps_handles_open D ->
  conn_is_closed D h (world st) = false ->
  conn_is_closed D h (world (snd (run_statement D statement binds st)))
  = false.
Proof.
  intros [_ Hk] Hopen. unfold_client. simpl.
  destruct (connection (self st)) as [h'|]; simpl; [|exact Hopen].
  destruct (conn_cursor D h' (world st)) as [[c|e] w1] eqn:E1; simpl;
    assert (O1 : conn_is_closed D h w1 = false)
      by (pose proof (proj1 (Hk h (world st) Hopen) h') as P;
          now rewrite E1 in P);
    [|exact O1].
  destruct (cur_execute D c statement binds w1) as [[[]|e] w2] eqn:E2; simpl;
    assert (O2 : conn_is_closed D h w2 = false)
      by (pose proof (proj1 (proj2 (Hk h w1 O1)) c statement binds) as P;
          now rewrite E2 in P);
    [|exact O2].
  assert (Oclose : forall w, conn_is_closed D h w = false ->
              forall r w', cur_close D c w = (r, w') ->
                           conn_is_closed D h w' = false).
  { intros w Hw r w' E.
    pose proof (proj2 (proj2 (proj2 (Hk h w Hw))) c) as P.
    now rewrite E in P. }
  destruct (cur_description D c w2) as [[|d ds]|]; simpl.
  - destruct (cur_close D c w2) as [[[]|e] w4] eqn:E4; simpl;
      exact (Oclose w2 O2 _ _ E4).
  - destruct (cur_fetchall D c w2) as [[rows|e] w3] eqn:E3; simpl;
      assert (O3 : conn_is_closed D h w3 = false)
        by (pose proof (proj1 (proj2 (proj2 (Hk h w2 O2))) c) as P;
            now rewrite E3 in P);
      [|exact O3].
    destruct (cur_close D c w3) as [[[]|e] w4] eqn:E4; simpl;
      exact (Oclose w3 O3 _ _ E4).
  - destruct (cur_close D c w2) as [[[]|e] w4] eqn:E4; simpl;
      exact (Oclose w2 O2 _ _ E4).
Qed.

Lemma run_operation_connected st (op : operation) :
  keeps_handles_open D ->
  connected D st = true ->
  connected D (run_operation D st op) = true.
Proof.
  intros Hk Hconn.
  assert (Hrun : forall statement binds,
             connected D (snd (run_statement D statement binds st)) = true).
  { intros statement binds. unfold connected in *.
    rewrite run_statement_self.
    destruct (connection (self st)) as [h|]; [|discriminate].
    rewrite run_statement_keeps_open; [reflexivity | exact Hk |].
    now destruct (conn_is_closed D h (world st)). }
  destruct op as [procedure_name parameters | query]; simpl.
  - rewrite call_state by exact Hconn. apply Hrun.
  - rewrite query_state by exact Hconn. apply Hrun.
Qed.

Lemma run_operations_connected (ops : list operation) st :
  keeps_handles_open D ->
  connected D st = true ->
  connected D (run_operations D ops st) = true.
Proof.
  intros Hk. revert st. unfold run_operations.
  induction ops as [|op ops IH]; intros st Hconn; simpl; [exact Hconn|].
  apply IH, run_operation_connected; assumption.
Qed.

Lemma connect_connected st (u : unit) (st1 : state W H C) :
  keeps_handles_open D ->
  connect D st = (Return u, st1) ->
  connected D st1 = true.
Proof.
  intros [Ho _]. unfold_client. simpl.
  destruct (drv_connect D (connection_params (self st)) (world st))
    as [[h|e] w'] eqn:Hdrv; simpl.
  - intros Heq. injection Heq as _ <-. simpl.
    now rewrite (Ho _ _ _ _ Hdrv).
  - destruct (is_DatabaseError e);
      [destruct (PyStr.contains "authentication" (PyStr.lower (exn_str e)))|];
      discriminate.
Qed.

End ConnectionFacts.

(** C7.  [with client: body] starts with [connect]: when it raises, its
    exception leaves the block, and neither the body nor [disconnect]
    runs.  When it returns, the body runs, and whether the body returns or
    raises, the block ends with one run of [disconnect] from the state the
    body left: the outcome of the block is the outcome of the body (or the
    exception of [disconnect], should it raise one), the log of driver
    calls grows by the one [close()] of the handle that the body left, or
    by nothing if it left none, and no handle is left when [disconnect]
    returns. *)
Theorem scoped_use_disconnects_once {W H C : Type} (D : Driver W H C)
        {A : Type} (body : M W H C A) (st : state W H C) :
  (forall e st1,
      connect D st = (Raise e, st1) ->
      with_client D body st = (Raise e, st1))
  /\ (forall u st1 r st2,
         connect D st = (Return u, st1) ->
         body st1 = (r, st2) ->
         exists rd st3,
           disconnect D st2 = (rd, st3)
           /\ with_client D body st
              = (match rd with Return _ => r | Raise e' => Raise e' end, st3)
           /\ calls st3
              = (calls st2 ++ match connection (self st2) with
                              | Some h => [EvClose h]
                              | None => []
                              end)%list
           /\ close_calls (calls st3)
              = close_calls (calls st2)
                + (match connection (self st2) with Some _ => 1 | None => 0 end)
           /\ (forall ok, rd = Return ok -> connection (self st3) = None)).
Proof.
  split.
  - intros e st1 Hconn. unfold with_client, __enter__. now rewrite Hconn.
  - intros u st1 r st2 Hconn Hbody.
    destruct (disconnect D st2) as [rd st3] eqn:Hd.
    exists rd, st3. split; [reflexivity|].
    destruct (disconnect_effect D st2 rd st3 Hd) as [Hcalls Hnone].
    split; [|split; [exact Hcalls | split; [|exact Hnone]]].
    + unfold with_client, __enter__, __exit__. rewrite Hconn, Hbody.
      destruct r as [a|e]; rewrite Hd; now destruct rd.
    + rewrite Hcalls, close_calls_app.
      now destruct (connection (self st2)).
Qed.

(** A body that raises, on the in-memory driver: the connection is closed
    once, after the failed call. *)
Lemma scoped_use_disconnects_once_witness :
  exists rd st3,
    disconnect MemoryDriver.driver
      (snd (call_stored_procedure MemoryDriver.driver "missing_proc" None
              (MemoryDriver.after_connect "acme" "ann" "secret")))
    = (rd, st3)
    /\ with_client MemoryDriver.driver
         (call_stored_procedure MemoryDriver.driver "missing_proc" None)
         (MemoryDriver.start "acme" "ann" "secret")
       = (match rd with
          | Return _ =>
              Raise (Exn StoredProcedureError
                         "Error executing stored procedure missing_proc: 002140 (42601): Unknown function MISSING_PROC")
          | Raise e' => Raise e'
          end, st3)
    /\ calls st3
       = [EvConnect [("account", "acme"); ("user", "ann");
                     ("token", "secret"); ("authenticator", "oauth")];
          EvCursor 0; EvExecute 0 "CALL missing_proc()" None; EvClose 0]
    /\ close_calls (calls st3) = 1
    /\ (forall ok, rd = Return ok -> connection (self st3) = None).
Proof.
  exact (proj2 (scoped_use_disconnects_once MemoryDriver.driver
                  (call_stored_procedure MemoryDriver.driver "missing_proc"
                                         None)
                  (MemoryDriver.start "acme" "ann" "secret"))
               tt _ _ _ eq_refl eq_refl).
Defined.

(** C8.  [disconnect] on a session without a handle returns and changes
    nothing.  Whenever [disconnect] returns, the session is not connected
    afterwards and a further [disconnect] is such a no-op; it returns
    whenever the [close()] of the driver does, releasing the handle, so on
    a driver whose [close()] always returns it does so from every session.
    After a [connect] that returned, on a driver that reports a freshly
    connected handle open and closes no connection while it executes,
    [is_connected] is true, and stays true through any sequence of
    procedure calls and queries. *)
Theorem disconnect_idempotent {W H C : Type} (D : Driver W H C)
        (st : state W H C) :
  (connection (self st) = None -> disconnect D st = (Return tt, st))
  /\ (forall u st',
         disconnect D st = (Return u, st') ->
         connected D st' = false
         /\ is_connected D st' = (Return false, st')
         /\ disconnect D st' = (Return tt, st'))
  /\ (forall h w',
         connection (self st) = Some h ->
         conn_close D h (world st) = (Return tt, w') ->
         disconnect D st
         = (Return tt,
            {| self := set_connection None (self st); world := w';
               calls := (calls st ++ [EvClose h])%list |}))
  /\ (close_returns D ->
      exists st',
        disconnect D st = (Return tt, st')
        /\ is_connected D st' = (Return false, st')
        /\ disconnect D st' = (Return tt, st'))
  /\ (keeps_handles_open D ->
      forall u st1,
        connect D st = (Return u, st1) ->
        forall ops,
          connected D (run_operations D ops st1) = true
          /\ is_connected D (run_operations D ops st1)
             = (Return true, run_operations D ops st1)).
Proof.
  assert (Hnoop : forall s : state W H C,
             connection (self s) = None -> disconnect D s = (Return tt, s)).
  { intros s Hn. unfold_client. simpl. now rewrite Hn. }
  assert (Hafter : forall u st',
             disconnect D st = (Return u, st') ->
             connected D st' = false
             /\ is_connected D st' = (Return false, st')
             /\ disconnect D st' = (Return tt, st')).
  { intros u st' Hd.
    destruct (disconnect_effect D st (Return u) st' Hd) as [_ Hnone].
    specialize (Hnone u eq_refl).
    assert (Hc : connected D st' = false)
      by (unfold connected; now rewrite Hnone).
    split; [exact Hc|]. split; [|exact (Hnoop st' Hnone)].
    unfold is_connected, gets. now rewrite Hc. }
  assert (Hrel : forall h w',
             connection (self st) = Some h ->
             conn_close D h (world st) = (Return tt, w') ->
             disconnect D st
             = (Return tt,
                {| self := set_connection None (self st); world := w';
                   calls := (calls st ++ [EvClose h])%list |})).
  { intros h w' Hc Hcl. unfold_client. simpl. now rewrite Hc, Hcl. }
  split; [exact (Hnoop st)|]. split; [exact Hafter|].
  split; [exact Hrel|]. split.
  - intros Hclose.
    destruct (connection (self st)) as [h|] eqn:Hc.
    + destruct (Hclose h (world st)) as [w' Hcl].
      eexists. split; [exact (Hrel h w' eq_refl Hcl)|].
      exact (proj2 (Hafter tt _ (Hrel h w' eq_refl Hcl))).
    + exists st. split; [exact (Hnoop st Hc)|].
      exact (proj2 (Hafter tt st (Hnoop st Hc))).
  - intros Hk u st1 Hconn ops.
    pose proof (run_operations_connected D ops st1 Hk
                  (connect_connected D st u st1 Hk Hconn)) as Hc.
    split; [exact Hc|]. unfold is_connected, gets. now rewrite Hc.
Qed.

(** The in-memory driver honours the contract. *)
Lemma memory_driver_keeps_handles_open :
  keeps_handles_open MemoryDriver.driver.
Proof.
  split.
  - intros params w h w'. simpl. unfold MemoryDriver.connect_.
    destruct (PyDict.get String.eqb params "account") as [acct|];
      [|discriminate].
    destruct (PyDict.get String.eqb params "token") as [tok|];
      [|discriminate].
    destruct (PyStr.is_empty acct); [discriminate|].
    destruct (tok =? "expired-token"); [discriminate|].
    destruct (acct =? "unreachable"); [discriminate|].
    intros Heq. injection Heq as <- <-.
    unfold MemoryDriver.is_closed. simpl. now rewrite Nat.eqb_refl.
  - intros h w Hopen. simpl. repeat split.
    + intros h'. unfold MemoryDriver.cursor.
      now destruct (MemoryDriver.is_closed h' w).
    + intros c statement binds. unfold MemoryDriver.execute.
      destruct (statement =? "CALL missing_proc()"); [exact Hopen|].
      destruct (statement =? "SELEC 1"); exact Hopen.
    + intros c. exact Hopen.
    + intros c. exact Hopen.
Qed.

(** On the in-memory driver: connected through a call and a query,
    disconnected after [disconnect], which a second [disconnect] leaves
    as it is. *)
Lemma disconnect_idempotent_witness :
  connected MemoryDriver.driver
    (run_operations MemoryDriver.driver
       [OpCall "sp_example" None; OpQuery "SELECT 1"]
       (MemoryDriver.after_connect "acme" "ann" "secret")) = true
  /\ connected MemoryDriver.driver
       (snd (disconnect MemoryDriver.driver
               (MemoryDriver.after_connect "acme" "ann" "secret"))) = false
  /\ disconnect MemoryDriver.driver
       (snd (disconnect MemoryDriver.driver
               (MemoryDriver.after_connect "acme" "ann" "secret")))
     = (Return tt,
        snd (disconnect MemoryDriver.driver
               (MemoryDriver.after_connect "acme" "ann" "secret"))).
Proof.
  split.
  - exact (proj1 (proj2 (proj2 (proj2 (proj2
             (disconnect_idempotent MemoryDriver.driver
                (MemoryDriver.start "acme" "ann" "secret")))))
             memory_driver_keeps_handles_open tt _ eq_refl
             [OpCall "sp_example" None; OpQuery "SELECT 1"])).
  - pose proof (proj1 (proj2
             (disconnect_idempotent MemoryDriver.driver
                (MemoryDriver.after_connect "acme" "ann" "secret")))
             tt _ eq_refl) as [Hc [_ Hd]].
    split; [exact Hc | exact Hd].
Defined.

(* ===================================================================== *)
(** * The command line *)
(* ===================================================================== *)

Section CliFacts.

Import Cli.

Lemma mem_set_if_truthy (config : list (string * string))
      (key : string) (value : option string) (k : string) :
  PyDict.mem String.eqb (set_if_truthy config key value) k
  = (String.eqb key k && PyStr.truthy value)
    || PyDict.mem String.eqb config k.
Proof.
  unfold set_if_truthy. destruct value as [v|].
  - destruct (PyStr.truthy (Some v)).
    + unfold PyDict.mem.
      rewrite (get_setitem String.eqb string_eqb_eq).
      now destruct (String.eqb key k).
    + now rewrite andb_false_r.
  - now rewrite andb_false_r.
Qed.

(** A required key is in the configuration exactly when it is
    supplied. *)
Lemma required_in_config (args : Args) (getenv : string -> option string) :
  PyDict.mem String.eqb (build_config args getenv) "account"
  = supplied args getenv "account" "SNOWFLAKE_ACCOUNT"
  /\ PyDict.mem String.eqb (build_config args getenv) "username"
     = supplied args getenv "username" "SNOWFLAKE_USERNAME"
  /\ PyDict.mem String.eqb (build_config args getenv) "token"
     = supplied args getenv "token" "SNOWFLAKE_TOKEN".
Proof.
  unfold build_config, load_config_from_env, env_mapping, supplied.
  cbn [fold_left fst snd].
  repeat split; rewrite !mem_set_if_truthy;
    cbn [String.eqb Ascii.eqb Bool.eqb andb orb getattr];
    unfold PyDict.mem; cbn [PyDict.get];
    rewrite orb_false_r; reflexivity.
Qed.

Lemma missing_params_spec (config : list (string * string)) (key : string) :
  In key (missing_params config)
  <-> In key required_params /\ PyDict.mem String.eqb config key = false.
Proof.
  unfold missing_params. rewrite filter_In.
  now destruct (PyDict.mem String.eqb config key).
Qed.

End CliFacts.

(** C1, as the code has it.  The required fields are checked by [main],
    not by [connect].  When the account, the user name or the token is
    supplied neither by its flag nor by its environment variable (an empty
    text counts as not supplied), [main] ends with exit code 1 after
    logging the configuration error that names the missing fields: no
    client is created, the driver world is untouched and no call is made
    on the driver.  [connect] itself checks nothing: whatever the fields
    hold, it calls the driver once, with the fields as they are, and no
    exception that leaves it is a [ConfigurationError]. *)
Theorem configuration_checked_by_main {W H C : Type}
        (json_loads : string -> option PyVal) (D : Driver W H C) :
  (forall (args : Cli.Args) (getenv : string -> option string) (w : W),
      supplied args getenv "account" "SNOWFLAKE_ACCOUNT"
      && supplied args getenv "username" "SNOWFLAKE_USERNAME"
      && supplied args getenv "token" "SNOWFLAKE_TOKEN" = false ->
      exists missing,
        missing <> []
        /\ Cli.main json_loads D args getenv w
           = (Cli.Exit1 ("Configuration error: "
                         ++ "Missing required parameters: "
                         ++ PyStr.join ", " missing
                         ++ ". Provide them via command line arguments or environment variables."),
              w, [])
        /\ (In "account" missing
            <-> supplied args getenv "account" "SNOWFLAKE_ACCOUNT" = false)
        /\ (In "username" missing
            <-> supplied args getenv "username" "SNOWFLAKE_USERNAME" = false)
        /\ (In "token" missing
            <-> supplied args getenv "token" "SNOWFLAKE_TOKEN" = false))
  /\ (forall st : state W H C,
         calls (snd (connect D st))
         = (calls st ++ [EvConnect (connection_params (self st))])%list
         /\ forall e, fst (connect D st) = Raise e ->
                      exn_cls e <> ConfigurationError).
Proof.
  split.
  - intros args getenv w Hmissing.
    destruct (required_in_config args getenv) as [Ha [Hu Ht]].
    assert (Hin : forall key,
               In key Cli.required_params ->
               (In key (Cli.missing_params (Cli.build_config args getenv))
                <-> PyDict.mem String.eqb (Cli.build_config args getenv) key
                    = false)).
    { intros key Hkey. rewrite missing_params_spec. tauto. }
    exists (Cli.missing_params (Cli.build_config args getenv)).
    split; [|split; [|split; [|split]]].
    + intros Hnil.
      assert (Hall : forall key, In key Cli.required_params ->
                 PyDict.mem String.eqb (Cli.build_config args getenv) key
                 = true).
      { intros key Hkey.
        destruct (PyDict.mem String.eqb (Cli.build_config args getenv) key)
          eqn:E; [reflexivity|].
        apply (Hin key Hkey) in E. rewrite Hnil in E. destruct E. }
      rewrite <- Ha, <- Hu, <- Ht in Hmissing.
      rewrite !Hall in Hmissing by (simpl; tauto). discriminate.
    + unfold Cli.main.
      destruct (Cli.missing_params (Cli.build_config args getenv))
        as [|m ms] eqn:Hm; [|reflexivity].
      exfalso.
      assert (Hall : forall key, In key Cli.required_params ->
                 PyDict.mem String.eqb (Cli.build_config args getenv) key
                 = true).
      { intros key Hkey.
        destruct (PyDict.mem String.eqb (Cli.build_config args getenv) key)
          eqn:E; [reflexivity|].
        apply (Hin key Hkey) in E. destruct E. }
      rewrite <- Ha, <- Hu, <- Ht in Hmissing.
      rewrite !Hall in Hmissing by (simpl; tauto). discriminate.
    + rewrite <- Ha. apply Hin. simpl. tauto.
    + rewrite <- Hu. apply Hin. simpl. tauto.
    + rewrite <- Ht. apply Hin. simpl. tauto.
  - intros st. unfold connect. unfold_monad.
    cbn -[String.append PyStr.contains PyStr.lower].
    destruct (drv_connect D (connection_params (self st)) (world st))
      as [[h|e] w']; cbn -[String.append PyStr.contains PyStr.lower].
    + split; [reflexivity | discriminate].
    + destruct (is_DatabaseError e);
        [destruct (PyStr.contains "authentication" (PyStr.lower (exn_str e)))|];
        cbn -[String.append PyStr.contains PyStr.lower];
        (split; [reflexivity|]); intros e0 Heq; injection Heq as <-;
        discriminate.
Qed.

(** A run without an account, and a run whose account is the empty text,
    on the in-memory driver. *)
Lemma configuration_checked_by_main_witness :
  (exists missing,
      missing <> []
      /\ Cli.main Json.loads MemoryDriver.driver
           (MemoryDriver.flags (Some "") (Some "ann") (Some "secret"))
           MemoryDriver.no_env MemoryDriver.fresh
         = (Cli.Exit1 ("Configuration error: "
                       ++ "Missing required parameters: "
                       ++ PyStr.join ", " missing
                       ++ ". Provide them via command line arguments or environment variables."),
            MemoryDriver.fresh, [])
      /\ (In "account" missing
          <-> supplied (MemoryDriver.flags (Some "") (Some "ann")
                          (Some "secret"))
                       MemoryDriver.no_env "account" "SNOWFLAKE_ACCOUNT"
              = false)
      /\ (In "username" missing
          <-> supplied (MemoryDriver.flags (Some "") (Some "ann")
                          (Some "secret"))
                       MemoryDriver.no_env "username" "SNOWFLAKE_USERNAME"
              = false)
      /\ (In "token" missing
          <-> supplied (MemoryDriver.flags (Some "") (Some "ann")
                          (Some "secret"))
                       MemoryDriver.no_env "token" "SNOWFLAKE_TOKEN"
              = false))
  /\ Cli.main Json.loads MemoryDriver.driver
       (MemoryDriver.flags None (Some "ann") (Some "secret"))
       MemoryDriver.no_env MemoryDriver.fresh
     = (Cli.Exit1 "Configuration error: Missing required parameters: account. Provide them via command line arguments or environment variables.",
        MemoryDriver.fresh, []).
Proof.
  split.
  - exact (proj1 (configuration_checked_by_main Json.loads MemoryDriver.driver)
                 (MemoryDriver.flags (Some "") (Some "ann") (Some "secret"))
                 MemoryDriver.no_env MemoryDriver.fresh eq_refl).
  - reflexivity.
Defined.

(** C1, as stated, fails: with an empty account [connect] calls the
    driver, and what it raises is the wrapped failure of the driver, a
    [SnowflakeConnectionError]. *)
Lemma connect_unchecked_counterexample :
  account (self (MemoryDriver.start "" "ann" "secret")) = ""
  /\ connect MemoryDriver.driver (MemoryDriver.start "" "ann" "secret")
     = (Raise (Exn SnowflakeConnectionError
                   "Failed to connect to Snowflake: 251001: Account must be specified"),
        {| self := self (MemoryDriver.start "" "ann" "secret");
           world := MemoryDriver.fresh;
           calls := [EvConnect [("account", ""); ("user", "ann");
                                ("token", "secret");
                                ("authenticator", "oauth")]] |}).
Proof. split; reflexivity. Qed.




(* ===================================================================== *)
(** * More facts about strings *)
(* ===================================================================== *)

Section SplitFacts.

Import PyStr.

Variable sep : ascii.


Lemma split_without_sep (p : string) :
  has_char sep p = false -> split sep p = [p].
Proof.
  induction p as [|c p IH]; [reflexivity|]. simpl. intros Hc.
  apply orb_false_iff in Hc as [Hc Hp]. rewrite Hc, (IH Hp). reflexivity.
Qed.

Lemma split_app_sep (p r : string) :
  has_char sep p = false ->
  split sep (p ++ String sep r) = p :: split sep r.
Proof.
  induction p as [|c p IH]; simpl.
  - intros _. now rewrite Ascii.eqb_refl.
  - intros Hc. apply orb_false_iff in Hc as [Hc Hp].
    rewrite Hc, (IH Hp). reflexivity.
Qed.

(** Cutting a joined text gives the pieces back, when no piece holds the
    separator. *)
Lemma split_join (pieces : list string) :
  pieces <> [] ->
  Forall (fun piece => has_char sep piece = false) pieces ->
  split sep (join (String sep EmptyString) pieces) = pieces.
Proof.
  unfold join. intros Hne Hall.
  induction Hall as [|p ps Hp Hps IH]; [congruence|].
  destruct ps as [|q qs].
  - simpl. now apply split_without_sep.
  - change (String.concat (String sep EmptyString) (p :: q :: qs))
      with (p ++ String sep (String.concat (String sep EmptyString) (q :: qs))).
    rewrite split_app_sep by exact Hp. rewrite IH by discriminate.
    reflexivity.
Qed.

Lemma has_char_app (c : ascii) (a b : string) :
  has_char c (a ++ b) = has_char c a || has_char c b.
Proof.
  induction a as [|d a IH]; simpl; [reflexivity|].
  now rewrite IH, orb_assoc.
Qed.

(** A joined text holds a character only if a piece or the separator
    does. *)
Lemma has_char_join (c : ascii) (glue : string) (pieces : list string) :
  has_char c glue = false ->
  Forall (fun piece => has_char c piece = false) pieces ->
  has_char c (join glue pieces) = false.
Proof.
  unfold join. intros Hg Hall.
  induction Hall as [|p ps Hp Hps IH]; [reflexivity|].
  destruct ps as [|q qs]; [exact Hp|].
  change (String.concat glue (p :: q :: qs))
    with (p ++ glue ++ String.concat glue (q :: qs)).
  now rewrite !has_char_app, Hp, Hg, IH.
Qed.

End SplitFacts.

Lemma string_app_assoc (a b c : string) : (a ++ b) ++ c = a ++ b ++ c.
Proof. induction a as [|x a IH]; simpl; [|rewrite IH]; reflexivity. Qed.

Section StripFacts.

Import PyStr.







End StripFacts.

(* ===================================================================== *)
(** * More about the parameter string *)
(* ===================================================================== *)






(* ===================================================================== *)
(** * More facts about dictionaries and records *)
(* ===================================================================== *)

Section MoreDictFacts.

Import PyDict.

Context {K V : Type} (eqb : K -> K -> bool).
Hypothesis eqb_eq : forall a b, eqb a b = true <-> a = b.

Lemma existsb_eqb_In (k : K) (l : list K) :
  existsb (eqb k) l = true <-> In k l.
Proof.
  rewrite existsb_exists. split.
  - intros [x [Hin Hx]]. apply eqb_eq in Hx. now subst.
  - intros Hin. exists k. split; [exact Hin | now apply eqb_eq].
Qed.

Lemma nodup_keys_setitem (d : list (K * V)) (k : K) (v : V) :
  NoDup (keys d) -> NoDup (keys (setitem eqb d k v)).
Proof.
  intros Hnd. rewrite (keys_setitem eqb eqb_eq).
  destruct (existsb (eqb k) (keys d)) eqn:E; [exact Hnd|].
  apply NoDup_app; [exact Hnd | constructor; [intros [] | constructor] |].
  intros x Hin [Hx|[]]. subst x.
  apply existsb_eqb_In in Hin. congruence.
Qed.

Lemma nodup_keys_fold (ps acc : list (K * V)) :
  NoDup (keys acc) ->
  NoDup (keys (fold_left (fun d kv => setitem eqb d (fst kv) (snd kv))
                         ps acc)).
Proof.
  revert acc. induction ps as [|[k v] ps IH]; intros acc Hnd; simpl;
    [exact Hnd|].
  apply IH, nodup_keys_setitem, Hnd.
Qed.

(** The keys of [dict(pairs)] are distinct. *)
Lemma nodup_keys_of_pairs (ps : list (K * V)) :
  NoDup (keys (of_pairs eqb ps)).
Proof. apply nodup_keys_fold. constructor. Qed.

Lemma length_setitem (d : list (K * V)) (k : K) (v : V) :
  List.length (setitem eqb d k v)
  = if existsb (eqb k) (keys d) then List.length d else S (List.length d).
Proof.
  rewrite <- (length_map fst (setitem eqb d k v)).
  change (map fst (setitem eqb d k v)) with (keys (setitem eqb d k v)).
  rewrite (keys_setitem eqb eqb_eq).
  destruct (existsb (eqb k) (keys d)); unfold keys.
  - now rewrite length_map.
  - rewrite length_app, length_map. simpl. lia.
Qed.

Lemma length_fold (ps acc : list (K * V)) :
  List.length (fold_left (fun d kv => setitem eqb d (fst kv) (snd kv)) ps acc)
  <= List.length acc + List.length ps.
Proof.
  revert acc. induction ps as [|[k v] ps IH]; intros acc; simpl; [lia|].
  specialize (IH (setitem eqb acc k v)). rewrite length_setitem in IH.
  destruct (existsb (eqb k) (keys acc)); lia.
Qed.

(** A key that comes twice costs an entry. *)
Lemma length_fold_repeated (ps acc : list (K * V)) :
  ~ NoDup (keys acc ++ map fst ps)%list ->
  NoDup (keys acc) ->
  List.length (fold_left (fun d kv => setitem eqb d (fst kv) (snd kv)) ps acc)
  < List.length acc + List.length ps.
Proof.
  revert acc. induction ps as [|[k v] ps IH]; intros acc Hdup Hacc; simpl.
  - rewrite app_nil_r in Hdup. contradiction.
  - destruct (existsb (eqb k) (keys acc)) eqn:E.
    + pose proof (length_fold ps (setitem eqb acc k v)) as Hle.
      rewrite length_setitem, E in Hle. lia.
    + assert (Hnin : ~ In k (keys acc)).
      { intro Hin. apply existsb_eqb_In in Hin. congruence. }
      specialize (IH (setitem eqb acc k v)).
      rewrite length_setitem, E in IH.
      assert (Hlt : List.length
                      (fold_left (fun d kv => setitem eqb d (fst kv) (snd kv))
                                 ps (setitem eqb acc k v))
                    < S (List.length acc) + List.length ps).
      { apply IH.
        - rewrite (keys_setitem eqb eqb_eq), E, <- app_assoc. exact Hdup.
        - apply nodup_keys_setitem, Hacc. }
      lia.
Qed.

(** A key is listed exactly when looking it up finds something. *)
Lemma in_keys_get (d : list (K * V)) (k : K) :
  In k (keys d) <-> get eqb d k <> None.
Proof.
  unfold keys. induction d as [|[k0 v0] d IH]; simpl.
  - split; [intros [] | congruence].
  - destruct (eqb k0 k) eqn:E.
    + apply eqb_eq in E. split; [discriminate | now left].
    + rewrite <- IH. split; [|now right].
      intros [Heq|Hin]; [|exact Hin].
      subst k0. rewrite eqb_refl in E by exact eqb_eq. discriminate.
Qed.

End MoreDictFacts.

(** X3.  A record built by [dict(zip(columns, row))] has distinct names,
    all of them column names, and at most one cell per zipped column;
    when a name comes twice among the zipped columns the record has fewer
    cells than were zipped: the cell of the earlier column is lost (the
    later one takes its place). *)
Theorem record_keys_distinct (columns : list string) (row : list PyVal) :
  NoDup (PyDict.keys (row_dict columns row))
  /\ (forall k, In k (PyDict.keys (row_dict columns row)) -> In k columns)
  /\ List.length (row_dict columns row)
     <= Nat.min (List.length columns) (List.length row)
  /\ (~ NoDup (map fst (combine columns row)) ->
      List.length (row_dict columns row)
      < Nat.min (List.length columns) (List.length row)).
Proof.
  unfold row_dict.
  split; [|split; [|split]].
  - apply (nodup_keys_of_pairs String.eqb string_eqb_eq).
  - intros k Hin.
    apply (in_keys_get String.eqb string_eqb_eq) in Hin.
    rewrite (get_of_pairs String.eqb string_eqb_eq) in Hin.
    apply (in_keys_get String.eqb string_eqb_eq) in Hin.
    unfold PyDict.keys in Hin. rewrite map_rev, <- in_rev in Hin.
    apply in_map_iff in Hin as [[k' v] [Hk Hin]]. simpl in Hk. subst k'.
    eapply in_combine_l; eassumption.
  - pose proof (length_fold String.eqb string_eqb_eq (combine columns row) [])
      as Hle.
    rewrite length_combine in Hle. exact Hle.
  - intros Hdup.
    pose proof (length_fold_repeated String.eqb string_eqb_eq
                  (combine columns row) [] Hdup (NoDup_nil _)) as Hlt.
    rewrite length_combine in Hlt. exact Hlt.
Qed.

Lemma record_keys_distinct_witness :
  List.length (row_dict ["ID"; "NAME"; "ID"] [PInt 1; pstr "a"; PInt 2]) < 3.
Proof.
  refine (proj2 (proj2 (proj2 (record_keys_distinct ["ID"; "NAME"; "ID"]
                                 [PInt 1; pstr "a"; PInt 2]))) _).
  intros Hnd. simpl in Hnd. inversion Hnd as [|x l Hnotin _]; subst.
  apply Hnotin. simpl. auto.
Defined.

(* ===================================================================== *)
(** * More about the session client *)
(* ===================================================================== *)

Section MoreClientFacts.

Context {W H C : Type} (D : Driver W H C).

Implicit Types (st : state W H C) (h : H) (c : C).

Lemma get_add_optional (key : string) (value : option string)
      (params : list (string * string)) (k : string) :
  PyDict.get String.eqb (add_optional key value params) k
  = if String.eqb key k && PyStr.truthy value then value
    else PyDict.get String.eqb params k.
Proof.
  unfold add_optional. destruct value as [v|].
  - destruct (PyStr.truthy (Some v)).
    + rewrite (get_setitem String.eqb string_eqb_eq).
      now destruct (String.eqb key k).
    + now rewrite andb_false_r.
  - now rewrite andb_false_r.
Qed.

Lemma nodup_keys_add_optional (key : string) (value : option string)
      (params : list (string * string)) :
  NoDup (PyDict.keys params) ->
  NoDup (PyDict.keys (add_optional key value params)).
Proof.
  intros Hnd. unfold add_optional. destruct value as [v|]; [|exact Hnd].
  destruct (PyStr.truthy (Some v)); [|exact Hnd].
  now apply (nodup_keys_setitem String.eqb string_eqb_eq).
Qed.

Lemma call_when_disconnected st (procedure_name : string)
      (parameters : option (list PyVal)) :
  connected D st = false ->
  call_stored_procedure D procedure_name parameters st
  = (Raise not_connected, st).
Proof.
  intros Hc. unfold call_stored_procedure, is_connected. unfold_monad.
  now rewrite Hc.
Qed.

Lemma query_when_disconnected st (query : string) :
  connected D st = false ->
  execute_query D query st = (Raise not_connected, st).
Proof.
  intros Hc. unfold execute_query, is_connected. unfold_monad.
  now rewrite Hc.
Qed.

(** The execution methods leave the client object alone, connected or
    not. *)
Lemma call_self st (procedure_name : string)
      (parameters : option (list PyVal)) :
  self (snd (call_stored_procedure D procedure_name parameters st)) = self st.
Proof.
  destruct (connected D st) eqn:Hc.
  - rewrite call_state by exact Hc. apply run_statement_self.
  - now rewrite call_when_disconnected.
Qed.

Lemma query_self st (query : string) :
  self (snd (execute_query D query st)) = self st.
Proof.
  destruct (connected D st) eqn:Hc.
  - rewrite query_state by exact Hc. apply run_statement_self.
  - now rewrite query_when_disconnected.
Qed.

(** A run only adds calls that concern a cursor. *)
Lemma run_statement_log st (statement : string)
      (binds : option (list PyVal)) :
  exists middle,
    calls (snd (run_statement D statement binds st))
    = (calls st ++ middle)%list
    /\ forallb is_cursor_event middle = true.
Proof.
  unfold_client. simpl.
  destruct (connection (self st)) as [h|]; simpl;
    [|exists []; now rewrite app_nil_r].
  destruct (conn_cursor D h (world st)) as [[c|e] w1]; simpl;
    [|exists [EvCursor h]; now split].
  destruct (cur_execute D c statement binds w1) as [[[]|e] w2]; simpl;
    [|exists [EvCursor h; EvExecute c statement binds];
      now rewrite <- !app_assoc].
  destruct (cur_description D c w2) as [[|d ds]|]; simpl.
  - destruct (cur_close D c w2) as [[[]|e] w4]; simpl;
      exists [EvCursor h; EvExecute c statement binds; EvCursorClose c];
      now rewrite <- !app_assoc.
  - destruct (cur_fetchall D c w2) as [[rows|e] w3]; simpl.
    + destruct (cur_close D c w3) as [[[]|e] w4]; simpl;
        exists [EvCursor h; EvExecute c statement binds; EvFetchall c;
                EvCursorClose c];
        now rewrite <- !app_assoc.
    + exists [EvCursor h; EvExecute c statement binds; EvFetchall c].
      now rewrite <- !app_assoc.
  - destruct (cur_close D c w2) as [[[]|e] w4]; simpl;
      exists [EvCursor h; EvExecute c statement binds; EvCursorClose c];
      now rewrite <- !app_assoc.
Qed.

Lemma call_log st (procedure_name : string)
      (parameters : option (list PyVal)) :
  exists middle,
    calls (snd (call_stored_procedure D procedure_name parameters st))
    = (calls st ++ middle)%list
    /\ forallb is_cursor_event middle = true.
Proof.
  destruct (connected D st) eqn:Hc.
  - rewrite call_state by exact Hc. apply run_statement_log.
  - rewrite call_when_disconnected by exact Hc.
    exists []. now rewrite app_nil_r.
Qed.

Lemma query_log st (query : string) :
  exists middle,
    calls (snd (execute_query D query st)) = (calls st ++ middle)%list
    /\ forallb is_cursor_event middle = true.
Proof.
  destruct (connected D st) eqn:Hc.
  - rewrite query_state by exact Hc. apply run_statement_log.
  - rewrite query_when_disconnected by exact Hc.
    exists []. now rewrite app_nil_r.
Qed.

Lemma cursor_close_calls_app (a b : list (event H C)) :
  cursor_close_calls (a ++ b)%list
  = cursor_close_calls a + cursor_close_calls b.
Proof. unfold cursor_close_calls. now rewrite filter_app, length_app. Qed.



End MoreClientFacts.

(** X4.  The keyword arguments [connect] gives the driver always hold the
    account, the user and the token as the client holds them, and
    [authenticator = 'oauth']; each of warehouse, database, schema and
    role is among them exactly when the client holds a non-empty text for
    it, with that text; no keyword comes twice. *)
Theorem connection_params_forwarding {H : Type} (client : SnowflakeClient H) :
  let params := connection_params client in
  PyDict.get String.eqb params "account" = Some (account client)
  /\ PyDict.get String.eqb params "user" = Some (username client)
  /\ PyDict.get String.eqb params "token" = Some (token client)
  /\ PyDict.get String.eqb params "authenticator" = Some "oauth"
  /\ PyDict.get String.eqb params "warehouse"
     = (if PyStr.truthy (warehouse client) then warehouse client else None)
  /\ PyDict.get String.eqb params "database"
     = (if PyStr.truthy (database client) then database client else None)
  /\ PyDict.get String.eqb params "schema"
     = (if PyStr.truthy (schema client) then schema client else None)
  /\ PyDict.get String.eqb params "role"
     = (if PyStr.truthy (role client) then role client else None)
  /\ NoDup (PyDict.keys params).
Proof.
  unfold connection_params.
  repeat split;
    try (rewrite !get_add_optional;
         cbn [String.eqb Ascii.eqb Bool.eqb andb PyDict.get];
         reflexivity).
  repeat apply nodup_keys_add_optional. simpl.
  repeat constructor; simpl; intuition discriminate.
Qed.

(** X5.  A [connect] on a session that already holds a handle asks the
    driver for a new connection and replaces the handle without closing
    the one it held: after [connect], [connect], [disconnect] the driver
    has seen two connects and the single [close()] of the second handle.
    A [connect] that fails leaves the handle of the session as it was. *)
Theorem reconnect_replaces_handle {W H C : Type} (D : Driver W H C)
        (st : state W H C) (h1 h2 : H) (w1 w2 w3 : W) :
  let params := connection_params (self st) in
  drv_connect D params (world st) = (Return h1, w1) ->
  drv_connect D params w1 = (Return h2, w2) ->
  conn_close D h2 w2 = (Return tt, w3) ->
  bind (connect D) (fun _ => bind (connect D) (fun _ => disconnect D)) st
  = (Return tt,
     {| self := set_connection None (self st); world := w3;
        calls := (calls st ++ [EvConnect params; EvConnect params;
                               EvClose h2])%list |})
  /\ (forall st0 e w',
         drv_connect D (connection_params (self st0)) (world st0)
         = (Raise e, w') ->
         connection (self (snd (connect D st0))) = connection (self st0)).
Proof.
  intros params Hc1 Hc2 Hcl. split.
  - unfold connect, disconnect. unfold_monad.
    cbn -[String.append PyStr.contains PyStr.lower connection_params].
    fold params. rewrite Hc1.
    cbn -[String.append PyStr.contains PyStr.lower connection_params].
    replace (connection_params (set_connection (Some h1) (self st)))
      with params by reflexivity.
    rewrite Hc2.
    cbn -[String.append PyStr.contains PyStr.lower connection_params].
    rewrite Hcl.
    cbn -[String.append PyStr.contains PyStr.lower connection_params].
    now rewrite <- !app_assoc.
  - intros st0 e w' Hfail. unfold connect. unfold_monad.
    cbn -[String.append PyStr.contains PyStr.lower connection_params].
    rewrite Hfail.
    destruct (is_DatabaseError e);
      [destruct (PyStr.contains "authentication" (PyStr.lower (exn_str e)))|];
      reflexivity.
Qed.

(** On the in-memory driver the first handle stays open. *)
Lemma reconnect_replaces_handle_witness :
  bind (connect MemoryDriver.driver)
       (fun _ => bind (connect MemoryDriver.driver)
                      (fun _ => disconnect MemoryDriver.driver))
       (MemoryDriver.start "acme" "ann" "secret")
  = (Return tt,
     {| self := self (MemoryDriver.start "acme" "ann" "secret");
        world := {| MemoryDriver.next_handle := 2;
                    MemoryDriver.open_handles := [0];
                    MemoryDriver.last_statement := None |};
        calls := [EvConnect [("account", "acme"); ("user", "ann");
                             ("token", "secret"); ("authenticator", "oauth")];
                  EvConnect [("account", "acme"); ("user", "ann");
                             ("token", "secret"); ("authenticator", "oauth")];
                  EvClose 1] |}).
Proof.
  exact (proj1 (reconnect_replaces_handle MemoryDriver.driver
                  (MemoryDriver.start "acme" "ann" "secret") 0 1
                  _ _ _ eq_refl eq_refl eq_refl)).
Defined.



(* ===================================================================== *)
(** * More about the command line *)
(* ===================================================================== *)

Section MoreCliFacts.

Import Cli.

Lemma get_set_if_truthy (config : list (string * string))
      (key : string) (value : option string) (k : string) :
  PyDict.get String.eqb (set_if_truthy config key value) k
  = if String.eqb key k && PyStr.truthy value then value
    else PyDict.get String.eqb config k.
Proof.
  unfold set_if_truthy. destruct value as [v|].
  - destruct (PyStr.truthy (Some v)).
    + rewrite (get_setitem String.eqb string_eqb_eq).
      now destruct (String.eqb key k).
    + now rewrite andb_false_r.
  - now rewrite andb_false_r.
Qed.

Context {W H C : Type} (json_loads : string -> option PyVal)
        (D : Driver W H C).

Implicit Types (st : state W H C) (args : Args).

Lemma run_action_self args st :
  self (snd (run_action json_loads D args st)) = self st.
Proof.
  unfold run_action. destruct (args_query args) as [q|].
  - destruct (PyStr.truthy (Some q)); [apply query_self | apply call_self].
  - apply call_self.
Qed.

Lemma run_action_log args st :
  exists middle,
    calls (snd (run_action json_loads D args st)) = (calls st ++ middle)%list
    /\ forallb is_cursor_event middle = true.
Proof.
  unfold run_action. destruct (args_query args) as [q|].
  - destruct (PyStr.truthy (Some q)); [apply query_log | apply call_log].
  - apply call_log.
Qed.

(** With a complete configuration [main] runs its action between
    [connect] and [disconnect]. *)
Lemma main_complete args (getenv : string -> option string) (w : W) :
  missing_params (build_config args getenv) = [] ->
  main json_loads D args getenv w
  = match with_client D (run_action json_loads D args)
            {| self := main_client args getenv; world := w; calls := [] |}
    with
    | (Return results, st) => (Exit0 results, world st, calls st)
    | (Raise e, st) => (Exit1 (error_line e), world st, calls st)
    end.
Proof. intros Hm. unfold main. now rewrite Hm. Qed.

Lemma connect_returns st h (w1 : W) :
  drv_connect D (connection_params (self st)) (world st) = (Return h, w1) ->
  connect D st
  = (Return tt,
     {| self := set_connection (Some h) (self st); world := w1;
        calls := (calls st ++ [EvConnect (connection_params (self st))])%list
     |}).
Proof.
  intros Hdrv. unfold connect. unfold_monad.
  cbn -[String.append PyStr.contains PyStr.lower connection_params].
  now rewrite Hdrv.
Qed.



End MoreCliFacts.

(** X7.  The command line overrides the environment: for each of the
    seven connection keys the configuration of [main] holds the text of
    the flag when that is not empty, else the text of the environment
    variable when that is not empty, else nothing. *)
Theorem config_precedence (args : Cli.Args)
        (getenv : string -> option string) :
  Forall (fun ek =>
            PyDict.get String.eqb (Cli.build_config args getenv) (snd ek)
            = flag_or_env (Cli.getattr args (snd ek)) (getenv (fst ek)))
         Cli.env_mapping.
Proof.
  unfold Cli.env_mapping, Cli.build_config, Cli.load_config_from_env,
    Cli.env_mapping, flag_or_env.
  cbn [fold_left fst snd].
  repeat constructor;
    rewrite !get_set_if_truthy;
    cbn [String.eqb Ascii.eqb Bool.eqb andb PyDict.get Cli.getattr];
    match goal with
    | |- context [PyStr.truthy ?flag] =>
        destruct (PyStr.truthy flag); [reflexivity|]
    end;
    match goal with
    | |- context [PyStr.truthy ?env] =>
        destruct (PyStr.truthy env); reflexivity
    end.
Qed.



(** X9.  With a complete configuration and a [connect] that succeeds,
    [main] closes the connection it opened, once and as its last call on
    the driver, whether the action returns or raises: the calls are the
    connect, then calls that concern a cursor only, then the [close()] of
    the handle that the connect returned. *)
Theorem main_brackets_connection {W H C : Type}
        (json_loads : string -> option PyVal) (D : Driver W H C)
        (args : Cli.Args) (getenv : string -> option string) (w w1 : W)
        (h : H) :
  Cli.missing_params (Cli.build_config args getenv) = [] ->
  drv_connect D (connection_params (main_client (H := H) args getenv)) w
  = (Return h, w1) ->
  exists middle,
    snd (Cli.main json_loads D args getenv w)
    = (EvConnect (connection_params (main_client (H := H) args getenv))
         :: middle ++ [EvClose h])%list
    /\ forallb is_cursor_event middle = true.
Proof.
  intros Hm Hdrv. rewrite (main_complete json_loads D args getenv w Hm).
  unfold with_client, __enter__, __exit__.
  rewrite (connect_returns D {| self := main_client args getenv;
                                world := w; calls := [] |} h w1 Hdrv).
  cbn [self world calls app].
  set (st1 := {| self := set_connection (Some h) (main_client (H := H) args getenv);
                 world := w1;
                 calls := [EvConnect
                             (connection_params (main_client (H := H) args getenv))] |}).
  destruct (run_action_log json_loads D args st1) as [middle [Hlog Hmid]].
  pose proof (run_action_self json_loads D args st1) as Hself.
  exists middle. split; [|exact Hmid].
  destruct (Cli.run_action json_loads D args st1) as [r st2].
  cbn [snd] in Hlog, Hself.
  destruct (disconnect D st2) as [rd st3] eqn:Hd.
  destruct (disconnect_effect D st2 rd st3 Hd) as [Hcalls _].
  rewrite Hself in Hcalls. cbn [st1 self set_connection connection] in Hcalls.
  rewrite Hlog in Hcalls. cbn [st1 calls app] in Hcalls.
  destruct r as [results|e]; destruct rd as [[]|e']; cbn [snd]; exact Hcalls.
Qed.

Lemma main_brackets_connection_witness :
  exists middle,
    snd (Cli.main Json.loads MemoryDriver.driver
           (MemoryDriver.flags (Some "acme") (Some "ann") (Some "secret"))
           MemoryDriver.no_env MemoryDriver.fresh)
    = (EvConnect [("account", "acme"); ("user", "ann"); ("token", "secret");
                  ("authenticator", "oauth")]
         :: middle ++ [EvClose 0])%list
    /\ forallb is_cursor_event middle = true.
Proof.
  exact (main_brackets_connection Json.loads MemoryDriver.driver
           (MemoryDriver.flags (Some "acme") (Some "ann") (Some "secret"))
           MemoryDriver.no_env MemoryDriver.fresh _ 0 eq_refl eq_refl).
Defined.


Lemma memory_driver_close_returns : close_returns MemoryDriver.driver.
Proof. intros h w. eexists. reflexivity. Qed.


(* ===================================================================== *)
(** * The table output *)
(* ===================================================================== *)

Section TableFacts.

Import PyStr CliOutput.

Lemma fold_lines {R : Type} (line : R -> string) (rows : list R)
      (output : string) :
  fold_left (fun out row => out ++ line row ++ nl) rows output
  = output ++ fold_right (fun l rest => l ++ nl ++ rest) EmptyString
                         (map line rows).
Proof.
  revert output. induction rows as [|row rows IH]; intros output; simpl.
  - now rewrite app_empty_r.
  - rewrite IH. now rewrite !string_app_assoc.
Qed.

(** Cutting a text made of lines at the line ends gives the lines, and an
    empty piece after the last line end. *)
Lemma split_lines (lines : list string) :
  Forall (fun l => has_char "010"%char l = false) lines ->
  split "010"%char
        (fold_right (fun l rest => l ++ nl ++ rest) EmptyString lines)
  = (lines ++ [EmptyString])%list.
Proof.
  induction 1 as [|l lines Hl Hlines IH]; [reflexivity|].
  cbn [fold_right].
  set (rest := fold_right (fun l rest => l ++ nl ++ rest) EmptyString lines)
    in *.
  change (nl ++ rest) with (String "010"%char rest).
  rewrite split_app_sep by exact Hl. now rewrite IH.
Qed.

End TableFacts.

(** X11.  The table output can be read back.  For results whose first
    record has at least one key, when no key and no rendered cell holds a
    tab or a line end: cutting the output at the line ends gives the
    header line, one line per record in order, and an empty piece after
    the last line end; cutting the header line at the tabs gives the keys
    of the first record, and cutting the line of a record gives, for each
    of these keys, the text of its cell, which is empty when the record
    lacks the key.  Keys that the first record lacks are not shown.  For
    no results the output is "No results returned." and a line end. *)
Theorem table_output_read_back (py_str : PyVal -> string)
        (first : Record_) (rest : list Record_) :
  let results := first :: rest in
  let headers := PyDict.keys first in
  let cells := fun row => map (CliOutput.table_cell py_str row) headers in
  headers <> [] ->
  Forall (fun header => PyStr.has_char "009"%char header = false
                        /\ PyStr.has_char "010"%char header = false)
         headers ->
  Forall (fun row =>
            Forall (fun cell => PyStr.has_char "009"%char cell = false
                                /\ PyStr.has_char "010"%char cell = false)
                   (cells row))
         results ->
  PyStr.split "010"%char (CliOutput.format_table py_str results)
  = (PyStr.join CliOutput.tab headers
       :: map (fun row => PyStr.join CliOutput.tab (cells row)) results
       ++ [EmptyString])%list
  /\ PyStr.split "009"%char (PyStr.join CliOutput.tab headers) = headers
  /\ Forall (fun row =>
               PyStr.split "009"%char (PyStr.join CliOutput.tab (cells row))
               = cells row)
            results
  /\ (forall row header,
         PyDict.get String.eqb row header = None ->
         CliOutput.table_cell py_str row header = EmptyString)
  /\ CliOutput.format_table py_str [] = "No results returned." ++ CliOutput.nl.
Proof.
  intros results headers cells Hne Hheaders Hcells.
  assert (Hsplit : forall texts,
             texts <> [] ->
             Forall (fun t => PyStr.has_char "009"%char t = false
                              /\ PyStr.has_char "010"%char t = false) texts ->
             PyStr.split "009"%char (PyStr.join CliOutput.tab texts) = texts
             /\ PyStr.has_char "010"%char (PyStr.join CliOutput.tab texts)
                = false).
  { intros texts Hn Hall. split.
    - apply (split_join "009"%char texts Hn).
      eapply Forall_impl; [|exact Hall]. now intros t [Ht _].
    - apply has_char_join; [reflexivity|].
      eapply Forall_impl; [|exact Hall]. now intros t [_ Ht]. }
  assert (Hcells_ne : forall row, cells row <> []).
  { intros row. unfold cells. destruct headers; [congruence | discriminate]. }
  split; [|split; [|split; [|split]]].
  - unfold CliOutput.format_table, results. fold headers.
    unfold CliOutput.table_line.
    rewrite (fold_lines
               (fun row => PyStr.join CliOutput.tab
                             (map (CliOutput.table_cell py_str row) headers))).
    unfold cells. rewrite string_app_assoc.
    match goal with
    | |- PyStr.split _ (?hdr ++ CliOutput.nl ++ fold_right ?F _ ?ls) = _ =>
        change (hdr ++ CliOutput.nl ++ fold_right F EmptyString ls)
          with (fold_right F EmptyString (hdr :: ls))
    end.
    rewrite split_lines; [reflexivity|].
    constructor; [exact (proj2 (Hsplit headers Hne Hheaders))|].
    apply Forall_map. rewrite Forall_forall in *. intros row Hrow.
    exact (proj2 (Hsplit (cells row) (Hcells_ne row) (Hcells row Hrow))).
  - exact (proj1 (Hsplit headers Hne Hheaders)).
  - rewrite Forall_forall in *. intros row Hrow.
    exact (proj1 (Hsplit (cells row) (Hcells_ne row) (Hcells row Hrow))).
  - intros row header Hnone. unfold CliOutput.table_cell. now rewrite Hnone.
  - reflexivity.
Qed.

(** Two records, the second without the key [NOTE]; the cells are [None]
    and booleans, whose texts are "None", "True" and "False". *)
Lemma table_output_read_back_witness :
  PyStr.split "010"%char
    (CliOutput.format_table
       (fun cell => match cell with
                    | PNone => "None"
                    | PBool true => "True"
                    | PBool false => "False"
                    | _ => "?"
                    end)
       [[("LOADED", PBool true); ("NOTE", PNone)]; [("LOADED", PBool false)]])
  = [PyStr.join CliOutput.tab ["LOADED"; "NOTE"];
     PyStr.join CliOutput.tab ["True"; "None"];
     PyStr.join CliOutput.tab ["False"; ""];
     ""].
Proof.
  refine (proj1 (table_output_read_back _
                   [("LOADED", PBool true); ("NOTE", PNone)]
                   [[("LOADED", PBool false)]] _ _ _)).
  - discriminate.
  - repeat constructor.
  - repeat constructor.
Defined.

(* ===================================================================== *)
(** * The patterns of the examples *)
(* ===================================================================== *)

Section PatternFacts.

Context {W H C : Type} (D : Driver W H C).

Implicit Types (st : state W H C).

(** What [call_stored_procedure] can raise: the refusal of a disconnected
    session, or a [StoredProcedureError] that names the procedure. *)
Lemma call_raises st (procedure_name : string)
      (parameters : option (list PyVal)) (e : exn) (st' : state W H C) :
  call_stored_procedure D procedure_name parameters st = (Raise e, st') ->
  (connected D st = false /\ e = not_connected /\ st' = st)
  \/ (connected D st = true
      /\ exists e0,
          e = Exn StoredProcedureError
                  ((if is_ProgrammingError e0
                    then "Error executing stored procedure "
                    else "Unexpected error executing stored procedure ")
                   ++ procedure_name ++ ": " ++ exn_str e0)).
Proof.
  destruct (connected D st) eqn:Hc.
  - rewrite call_when_connected by exact Hc.
    destruct (call_stored_procedure_body D procedure_name parameters st)
      as [[results|e0] st0]; [discriminate|].
    intros Heq. injection Heq as <- _. right. split; [reflexivity|].
    now exists e0.
  - rewrite call_when_disconnected by exact Hc.
    intros Heq. injection Heq as <- <-. now left.
Qed.

End PatternFacts.

(** X12.  The manual connection management of the basic example
    ([connect], then the body in [try], [disconnect] in [finally]) behaves
    as the [with] block does: same outcome, same client, same driver world
    and same calls on the driver, for every body and from every state. *)
Theorem manual_connection_is_scoped_use {W H C A : Type} (D : Driver W H C)
        (body : M W H C A) (st : state W H C) :
  manual_connection D body st = with_client D body st.
Proof.
  unfold manual_connection, try_finally, with_client, __enter__, __exit__,
    bind.
  destruct (connect D st) as [[[]|e] st1]; [|reflexivity].
  destruct (body st1) as [[a|e] st2];
    now destruct (disconnect D st2) as [[[]|e'] st3].
Qed.

(** X13.  The fallback of the error-handling example.  When the primary
    call fails in a connected session, the fallback procedure is called,
    whatever made the primary fail: the client wraps every failure as a
    [StoredProcedureError].  In a disconnected session the refusal of the
    primary call is raised and the fallback is not tried.  An exception
    that leaves the function is the refusal of a disconnected session or
    a [StoredProcedureError] that names the fallback procedure, never the
    primary one's failure. *)
Theorem fallback_after_any_failure {W H C : Type} (D : Driver W H C)
        (primary_proc fallback_proc : string)
        (params : option (list PyVal)) (st st1 : state W H C) (e1 : exn) :
  call_stored_procedure D primary_proc params st = (Raise e1, st1) ->
  call_procedure_with_fallback D primary_proc fallback_proc params st
  = (if connected D st
     then call_stored_procedure D fallback_proc params st1
     else (Raise not_connected, st))
  /\ (forall e st',
         call_procedure_with_fallback D primary_proc fallback_proc params st
         = (Raise e, st') ->
         e = not_connected
         \/ exists e0,
             e = Exn StoredProcedureError
                     ((if is_ProgrammingError e0
                       then "Error executing stored procedure "
                       else "Unexpected error executing stored procedure ")
                      ++ fallback_proc ++ ": " ++ exn_str e0)).
Proof.
  intros Hprimary.
  assert (Heq : call_procedure_with_fallback D primary_proc fallback_proc
                  params st
                = (if connected D st
                   then call_stored_procedure D fallback_proc params st1
                   else (Raise not_connected, st))).
  { unfold call_procedure_with_fallback. rewrite Hprimary.
    destruct (call_raises D st primary_proc params e1 st1 Hprimary)
      as [[Hc [-> ->]] | [Hc [e0 ->]]]; now rewrite Hc. }
  split; [exact Heq|].
  intros e st'. rewrite Heq.
  destruct (connected D st).
  - intros Hfb.
    destruct (call_raises D st1 fallback_proc params e st' Hfb)
      as [[_ [-> _]] | [_ Hwrapped]]; [now left | now right].
  - intros Hr. injection Hr as <- _. now left.
Qed.

(** The in-memory driver does not know [missing_proc]; the fallback
    [sp_example] gives the two rows. *)
Lemma fallback_after_any_failure_witness :
  fst (call_procedure_with_fallback MemoryDriver.driver
         "missing_proc" "sp_example" None
         (MemoryDriver.after_connect "acme" "ann" "secret"))
  = Return [[("A", PInt 1); ("B", pstr "x")];
            [("A", PInt 2); ("B", pstr "y")]].
Proof.
  pose proof (proj1 (fallback_after_any_failure MemoryDriver.driver
                       "missing_proc" "sp_example" None
                       (MemoryDriver.after_connect "acme" "ann" "secret")
                       _ _ eq_refl)) as Heq.
  rewrite Heq. reflexivity.
Defined.

(* ===================================================================== *)
(** * Retry with backoff *)
(* ===================================================================== *)

Section RetryFacts.

Import ErrorHandling.

Context {S A : Type} (func : S -> outcome A * S).

Implicit Types (s : S) (k i todo : nat) (slept : list Z).



(** The loop ends without a result only when it has no round to run. *)
Lemma retry_loop_none (max_retries base_delay : Z) todo :
  forall i s slept,
    (Z.of_nat i + Z.of_nat todo = max_retries)%Z ->
    fst (fst (retry_loop func max_retries base_delay (Z.of_nat i) todo s slept))
    = Return None ->
    todo = 0.
Proof.
  induction todo as [|todo IH]; intros i s slept Hsum; [reflexivity|].
  simpl. destruct (func s) as [[a|e] s']; [discriminate|].
  destruct (Z.eqb_spec (Z.of_nat i) (max_retries - 1)) as [_|Hne];
    [discriminate|].
  replace (Z.of_nat i + 1)%Z with (Z.of_nat (Datatypes.S i)) by lia.
  intros Hnone. apply IH in Hnone; lia.
Qed.


End RetryFacts.





(** X16.  [retry_with_backoff] returns [None] exactly when [max_retries]
    is not positive, and then [func] is not called and nothing is slept;
    with a positive [max_retries] it returns a result of [func] or raises
    an exception of [func]. *)
Theorem retry_returns_none_iff {S A : Type} (func : S -> outcome A * S)
        (max_retries base_delay : Z) (s : S) :
  (fst (fst (ErrorHandling.retry_with_backoff func max_retries base_delay s))
   = Return None
   <-> (max_retries <= 0)%Z)
  /\ ((max_retries <= 0)%Z ->
      ErrorHandling.retry_with_backoff func max_retries base_delay s
      = (Return None, s, [])).
Proof.
  assert (Hnone : (max_retries <= 0)%Z ->
                  ErrorHandling.retry_with_backoff func max_retries
                    base_delay s
                  = (Return None, s, [])).
  { intros Hle. unfold ErrorHandling.retry_with_backoff.
    replace (Z.to_nat max_retries) with 0 by lia. reflexivity. }
  split; [|exact Hnone]. split.
  - unfold ErrorHandling.retry_with_backoff. intros Hr.
    change 0%Z with (Z.of_nat 0) in Hr.
    destruct (Z.le_gt_cases max_retries 0) as [Hle|Hgt]; [exact Hle|].
    apply retry_loop_none in Hr; lia.
  - intros Hle. now rewrite Hnone.
Qed.

Lemma retry_returns_none_iff_witness :
  ErrorHandling.retry_with_backoff
    (fun n : nat => (Return n, S n)) 0 1 7
  = (Return None, 7, []).
Proof.
  refine (proj2 (retry_returns_none_iff (fun n : nat => (Return n, S n))
                   0 1 7) _).
  lia.
Defined.

(* ===================================================================== *)
(** * The circuit breaker *)
(* ===================================================================== *)

Section BreakerFacts.

Import ErrorHandling.

Context {S A : Type}.

Implicit Types (func : S -> outcome A * S) (self : CircuitBreaker) (s : S).

(** A call on a breaker that is not open runs [func]. *)
Lemma call_closed func self s :
  cb_state self = "CLOSED" ->
  cb_state (snd (fst (call func self s))) = "CLOSED"
  /\ cb_last_failure_time (snd (fst (call func self s)))
     = cb_last_failure_time self
  /\ snd (call func self s) = snd (func s).
Proof.
  intros Hst. unfold call. rewrite Hst. cbn [String.eqb Ascii.eqb Bool.eqb].
  destruct (func s) as [[result|e] s']; cbn [fst snd cb_state
    cb_last_failure_time]; auto.
Qed.

Lemma call_all_closed (funcs : list (S -> outcome A * S)) :
  forall self s,
    cb_state self = "CLOSED" ->
    cb_state (fst (call_all funcs self s)) = "CLOSED"
    /\ cb_last_failure_time (fst (call_all funcs self s))
       = cb_last_failure_time self.
Proof.
  unfold call_all.
  induction funcs as [|func funcs IH]; intros self s Hst; [now split|].
  cbn [fold_left fst snd].
  destruct (call_closed func self s Hst) as [Hst' [Hlast _]].
  destruct (call func self s) as [[r self'] s']. cbn [fst snd] in *.
  destruct (IH self' s' Hst') as [Hst2 Hlast2].
  split; [exact Hst2 | congruence].
Qed.

End BreakerFacts.

(** X17.  The circuit breaker never opens.  The class reads the clock as
    [time.time()], a name the module does not bind, so the handler of a
    failure stops before it can compare the count with the threshold.
    Whatever calls a new breaker has served, its state is [CLOSED] and no
    failure time is stored; the next call runs [func], and when [func]
    raises, the failure is counted and the caller gets the [NameError]
    instead of the exception of [func]. *)
Theorem breaker_never_opens {S A : Type}
        (funcs : list (S -> outcome A * S))
        (failure_threshold recovery_timeout : Z) (s : S) :
  let served := ErrorHandling.call_all funcs
                  (ErrorHandling.new_breaker failure_threshold
                                             recovery_timeout) s in
  ErrorHandling.cb_state (fst served) = "CLOSED"
  /\ ErrorHandling.cb_last_failure_time (fst served) = None
  /\ forall func : S -> outcome A * S,
      snd (ErrorHandling.call func (fst served) (snd served))
      = snd (func (snd served))
      /\ (forall e s',
             func (snd served) = (Raise e, s') ->
             fst (ErrorHandling.call func (fst served) (snd served))
             = (Raise ErrorHandling.time_unbound,
                {| ErrorHandling.cb_failure_threshold :=
                     ErrorHandling.cb_failure_threshold (fst served);
                   ErrorHandling.cb_recovery_timeout :=
                     ErrorHandling.cb_recovery_timeout (fst served);
                   ErrorHandling.cb_failure_count :=
                     ErrorHandling.cb_failure_count (fst served) + 1;
                   ErrorHandling.cb_last_failure_time := None;
                   ErrorHandling.cb_state := "CLOSED" |})).
Proof.
  intros served.
  assert (Hinv : ErrorHandling.cb_state (fst served) = "CLOSED"
                 /\ ErrorHandling.cb_last_failure_time (fst served) = None).
  { apply (call_all_closed funcs
             (ErrorHandling.new_breaker failure_threshold recovery_timeout)
             s eq_refl). }
  clearbody served. destruct Hinv as [Hst Hlast].
  split; [exact Hst|]. split; [exact Hlast|].
  intros func. split.
  - apply (call_closed func (fst served) (snd served) Hst).
  - intros e s' Hfail. unfold ErrorHandling.call.
    rewrite Hst, Hfail. cbn [String.eqb Ascii.eqb Bool.eqb fst].
    now rewrite Hlast.
Qed.

(** A breaker with threshold 2 that has served three failing calls is
    still closed, and the fourth failure is counted as well. *)
Lemma breaker_never_opens_witness :
  fst (ErrorHandling.call (A := unit)
         (fun n : nat => (Raise (Exn OtherException "down"), S n))
         (fst (ErrorHandling.call_all (A := unit)
                 (repeat (fun n : nat =>
                            (Raise (Exn OtherException "down"), S n)) 3)
                 (ErrorHandling.new_breaker 2 60) 0))
         3)
  = (Raise ErrorHandling.time_unbound,
     {| ErrorHandling.cb_failure_threshold := 2;
        ErrorHandling.cb_recovery_timeout := 60;
        ErrorHandling.cb_failure_count := 4;
        ErrorHandling.cb_last_failure_time := None;
        ErrorHandling.cb_state := "CLOSED" |}).
Proof.
  exact (proj2 (proj2 (proj2 (breaker_never_opens (A := unit)
                                (repeat (fun n : nat =>
                                           (Raise (Exn OtherException "down"),
                                            S n)) 3)
                                2 60 0))
                      (fun n : nat => (Raise (Exn OtherException "down"), S n)))
               (Exn OtherException "down") 4 eq_refl).
Defined.

(* ===================================================================== *)
(** * The setup test *)
(* ===================================================================== *)

Section SetupFacts.

Import TestSetup.

Context {W H C : Type} (D : Driver W H C).

Implicit Types (st : state W H C) (config : list (string * option string)).






(** The value of a test is that of its body, when the body returns and
    [disconnect] returns after it. *)
Lemma run_test_passes (importable : bool) config (body : M W H C bool)
      (w : W) :
  fst (fst (run_test D importable config body w)) = true ->
  importable = true
  /\ exists st1 st2, body st1 = (Return true, st2).
Proof.
  unfold run_test. destruct importable; [|discriminate].
  unfold with_client.
  destruct (__enter__ D _) as [[[]|e] st1]; [|discriminate].
  destruct (body st1) as [[passed|e] st2] eqn:Hbody.
  - destruct (__exit__ D None st2) as [[[]|e'] st3]; [|discriminate].
    simpl. intros ->. split; [reflexivity|]. now exists st1, st2.
  - now destruct (__exit__ D (Some e) st2) as [[[]|e'] st3].
Qed.

(** The loop over the rows stops at the first one. *)
Lemma procedures_body_fails st (r : outcome bool) (st' : state W H C) :
  test_procedures_exist_body D st = (r, st') -> r <> Return true.
Proof.
  unfold test_procedures_exist_body, bind.
  destruct (execute_query D _ st) as [[[|row rows]|e] st1].
  - unfold ret. intros Heq. injection Heq as <- _. discriminate.
  - cbn [for_each]. unfold bind, getitem_number, raise.
    intros Heq. injection Heq as <- _. discriminate.
  - intros Heq. injection Heq as <- _. discriminate.
Qed.

Lemma procedures_check_fails (importable : bool) config (w : W) :
  fst (fst (test_procedures_exist D importable config w)) = false.
Proof.
  destruct (fst (fst (test_procedures_exist D importable config w)))
    eqn:Hp; [|reflexivity].
  apply run_test_passes in Hp. destruct Hp as [_ [st1 [st2 Hbody]]].
  now apply procedures_body_fails in Hbody.
Qed.

End SetupFacts.

(** X18.  The configuration check of the setup test and that of the
    command line agree: the keys [validate_config] finds missing in the
    environment are the parameters [main] reports missing when no
    account, user name or token is given on the command line; the check
    passes exactly when the three required variables hold non-empty
    texts. *)
Theorem setup_check_agrees_with_cli (args : Cli.Args)
        (getenv : string -> option string) :
  PyStr.truthy (Cli.args_account args) = false ->
  PyStr.truthy (Cli.args_username args) = false ->
  PyStr.truthy (Cli.args_token args) = false ->
  TestSetup.missing (TestSetup.load_config getenv)
  = Cli.missing_params (Cli.build_config args getenv)
  /\ TestSetup.validate_config (TestSetup.load_config getenv)
     = PyStr.truthy (getenv "SNOWFLAKE_ACCOUNT")
       && PyStr.truthy (getenv "SNOWFLAKE_USERNAME")
       && PyStr.truthy (getenv "SNOWFLAKE_TOKEN").
Proof.
  intros Ha Hu Ht.
  destruct (required_in_config args getenv) as [Hma [Hmu Hmt]].
  unfold supplied in Hma, Hmu, Hmt.
  cbn [Cli.getattr String.eqb Ascii.eqb Bool.eqb] in Hma, Hmu, Hmt.
  rewrite Ha in Hma. rewrite Hu in Hmu. rewrite Ht in Hmt.
  cbn [orb] in Hma, Hmu, Hmt.
  unfold TestSetup.validate_config, TestSetup.missing, Cli.missing_params,
    Cli.required_params.
  cbn [filter]. rewrite Hma, Hmu, Hmt.
  unfold TestSetup.config_get, TestSetup.load_config.
  cbn [PyDict.get String.eqb Ascii.eqb Bool.eqb].
  split; [reflexivity|].
  destruct (PyStr.truthy (getenv "SNOWFLAKE_ACCOUNT"));
    destruct (PyStr.truthy (getenv "SNOWFLAKE_USERNAME"));
    destruct (PyStr.truthy (getenv "SNOWFLAKE_TOKEN")); reflexivity.
Qed.

(** With the account alone in the environment both checks miss the user
    name and the token. *)
Lemma setup_check_agrees_with_cli_witness :
  TestSetup.missing (TestSetup.load_config account_only)
  = ["username"; "token"]
  /\ Cli.missing_params
       (Cli.build_config (MemoryDriver.flags None None None) account_only)
     = ["username"; "token"].
Proof.
  pose proof (proj1 (setup_check_agrees_with_cli
                       (MemoryDriver.flags None None None) account_only
                       eq_refl eq_refl eq_refl)) as Heq.
  split; [reflexivity|]. rewrite <- Heq. reflexivity.
Defined.

(** X19.  The procedures check of the setup test cannot pass, and so the
    script never reports success.  The client returns its records as
    dictionaries keyed by column name; the check prints [row[1]], which
    raises [KeyError] on the first row, and on an empty result the check
    fails by itself.  With three tests at most passing out of four,
    [main] gives the exit status 1, whatever the environment, the driver
    and its answers. *)
Theorem setup_test_never_succeeds {W H C : Type} (D : Driver W H C)
        (importable : bool) (getenv : string -> option string) (w : W) :
  (TestSetup.validate_config (TestSetup.load_config getenv) = true ->
   forall w',
     fst (fst (TestSetup.test_procedures_exist D importable
                 (TestSetup.load_config getenv) w')) = false)
  /\ fst (fst (TestSetup.main D importable getenv w)) = 1%Z.
Proof.
  split; [intros _ w'; apply procedures_check_fails|].
  unfold TestSetup.main.
  destruct (TestSetup.validate_config (TestSetup.load_config getenv));
    [|reflexivity].
  cbn [negb].
  destruct (TestSetup.test_connection D importable
              (TestSetup.load_config getenv) w) as [[p2 w2] c2].
  pose proof (procedures_check_fails D importable
                (TestSetup.load_config getenv) w2) as Hp3.
  destruct (TestSetup.test_procedures_exist D importable
              (TestSetup.load_config getenv) w2) as [[p3 w3] c3].
  cbn [fst] in Hp3. subst p3.
  destruct (TestSetup.test_sp_example D importable
              (TestSetup.load_config getenv) w3) as [[p4 w4] c4].
  unfold TestSetup.test_import.
  now destruct importable, p2, p4.
Qed.

(** On the in-memory driver, which answers the query with two rows, the
    check fails and the script ends with status 1. *)
Lemma setup_test_never_succeeds_witness :
  fst (fst (TestSetup.test_procedures_exist MemoryDriver.driver true
              (TestSetup.load_config required_only) MemoryDriver.fresh))
  = false
  /\ fst (fst (TestSetup.main MemoryDriver.driver true required_only
                 MemoryDriver.fresh)) = 1%Z.
Proof.
  split.
  - exact (proj1 (setup_test_never_succeeds MemoryDriver.driver true
                    required_only MemoryDriver.fresh)
                 eq_refl MemoryDriver.fresh).
  - exact (proj2 (setup_test_never_succeeds MemoryDriver.driver true
                    required_only MemoryDriver.fresh)).
Defined.



(* ===================================================================== *)
(** * After the [with] block *)
(* ===================================================================== *)

Section ScopeFacts.

Context {W H C : Type} (D : Driver W H C).

Implicit Types (st : state W H C).

(** On a driver whose [close()] returns, [disconnect] returns. *)
Lemma disconnect_returns st :
  close_returns D -> exists st', disconnect D st = (Return tt, st').
Proof.
  intros Hclose. unfold_client. simpl.
  destruct (connection (self st)) as [h|]; simpl.
  - destruct (Hclose h (world st)) as [w' Hcl]. rewrite Hcl. simpl.
    eexists; reflexivity.
  - eexists; reflexivity.
Qed.

End ScopeFacts.

(** X21.  A session does not outlive its [with] block.  On a driver whose
    [close()] returns, once [connect] has succeeded the block leaves the
    client without a connection, however the body ended: afterwards
    [call_stored_procedure] and [execute_query] raise the "not connected"
    error without a call on the driver, and a further [disconnect] does
    nothing. *)
Theorem session_ends_with_scope {W H C A : Type} (D : Driver W H C)
        (body : M W H C A) (st st' : state W H C) (h : H) (w1 : W)
        (r : outcome A) :
  close_returns D ->
  drv_connect D (connection_params (self st)) (world st) = (Return h, w1) ->
  with_client D body st = (r, st') ->
  connected D st' = false
  /\ (forall procedure_name parameters,
         call_stored_procedure D procedure_name parameters st'
         = (Raise not_connected, st'))
  /\ (forall query, execute_query D query st' = (Raise not_connected, st'))
  /\ disconnect D st' = (Return tt, st').
Proof.
  intros Hclose Hdrv Hwith.
  assert (Hnone : connection (self st') = None).
  { unfold with_client, __enter__, __exit__ in Hwith.
    rewrite (connect_returns D st h w1 Hdrv) in Hwith.
    destruct (body _) as [r0 st2].
    destruct (disconnect_returns D st2 Hclose) as [st3 Hd].
    destruct (disconnect_effect D st2 _ st3 Hd) as [_ Hleft].
    rewrite Hd in Hwith.
    destruct r0 as [a|e]; injection Hwith as _ <-; exact (Hleft tt eq_refl). }
  assert (Hc : connected D st' = false) by (unfold connected; now rewrite Hnone).
  split; [exact Hc|]. split; [|split].
  - intros procedure_name parameters. now apply call_when_disconnected.
  - intros query. now apply query_when_disconnected.
  - unfold_client. simpl. now rewrite Hnone.
Qed.

(** After a block whose body failed on the in-memory driver, a query is
    refused. *)
Lemma session_ends_with_scope_witness :
  fst (execute_query MemoryDriver.driver "SELECT 1"
         (snd (with_client MemoryDriver.driver
                 (call_stored_procedure MemoryDriver.driver "missing_proc"
                                        None)
                 (MemoryDriver.start "acme" "ann" "secret"))))
  = Raise not_connected.
Proof.
  exact (f_equal fst
           (proj1 (proj2 (proj2 (session_ends_with_scope
                                   MemoryDriver.driver
                                   (call_stored_procedure
                                      MemoryDriver.driver "missing_proc" None)
                                   (MemoryDriver.start "acme" "ann" "secret")
                                   (snd (with_client MemoryDriver.driver
                                           (call_stored_procedure
                                              MemoryDriver.driver
                                              "missing_proc" None)
                                           (MemoryDriver.start "acme" "ann"
                                                               "secret")))
                                   0 _ _ memory_driver_close_returns
                                   eq_refl eq_refl)))
                  "SELECT 1")).
Defined.
